(** * eCommerce-System: the order, product and customer services

    A shallow embedding of the three Go services (order/order.go,
    product/product.go, customer/customer.go) and of the behaviour of the
    libraries they call, followed by the properties of the handlers.

    Layout:
    - Go values: errors, results, JSON values and encoding/json on the
      structs of the services;
    - the SDK calls of the handlers as events of a small free monad, and
      their meaning on a world of stores with injected failures;
    - the order service (DynamoDB, S3);
    - the cache-aside services (Redis in front of MySQL), written once for
      the two files that differ only in names, then instantiated;
    - the properties. *)

From Stdlib Require Import Ascii.
From stdpp Require Import base strings gmap list.

Local Open Scope string_scope.
Local Open Scope Z_scope.

(** ** Go values *)

(** A Go [error] value.  Two sentinels are compared by identity in the
    sources ([redis.Nil]) or produced by database/sql ([sql.ErrNoRows]);
    every other error is its message. *)
Inductive error : Type :=
| redis_Nil
| sql_ErrNoRows
| errors_New (msg : string).

#[global] Instance error_eq_dec : EqDecision error.
Proof. solve_decision. Defined.

(** [err.Error()] *)
Definition Error (e : error) : string :=
  match e with
  | redis_Nil => "redis: nil"
  | sql_ErrNoRows => "sql: no rows in result set"
  | errors_New msg => msg
  end.

(** A Go pair [(value, err)] in which exactly one side is set. *)
Inductive result (A : Type) : Type :=
| Ok (a : A)
| Err (e : error).
Arguments Ok {A} a.
Arguments Err {A} e.

(** HTTP status codes of net/http used by the handlers. *)
Definition StatusOK : Z := 200.
Definition StatusCreated : Z := 201.
Definition StatusBadRequest : Z := 400.
Definition StatusNotFound : Z := 404.
Definition StatusInternalServerError : Z := 500.

(** ** JSON values *)

#[local] Unset Elimination Schemes.
Inductive json : Type :=
| JNull
| JBool (b : bool)
| JNumber (literal : string)
| JString (s : string)
| JArray (elems : list json)
| JObject (members : list (string * json)).
#[local] Set Elimination Schemes.

(** [gin.H{key: msg}] *)
Definition gin_H (key msg : string) : json := JObject [(key, JString msg)].

(** The concrete syntax of JSON is the business of encoding/json and is
    kept abstract: [text] is the type of byte strings exchanged with the
    cache, the object store and HTTP clients.
    - [json_render] is the encoder's output for a value.
    - [json_parse] is the reading of a byte string that is one JSON value
      and nothing else but white space, as [json.Unmarshal] requires
      ([None] on a syntax error), and [json_syntax_error] is the error
      [json.Unmarshal] then returns.
    - [json_decode] is the reading of [json.Decoder.Decode] on a stream
      that starts with the byte string: the first JSON value, whatever
      follows it, or the decoder's error ([io.EOF] on an empty stream, a
      syntax error before the end of the first value).
    The strings inside a [json] value are decoded text, for which printing
    then parsing is the identity; a byte string that is one JSON value
    decodes to that value. *)
Class JSONText (text : Type) : Type := {
  json_render : json -> text;
  json_parse : text -> option json;
  json_syntax_error : text -> error;
  json_decode : text -> result json;
  json_parse_render : forall j, json_parse (json_render j) = Some j;
  json_decode_parse : forall t j, json_parse t = Some j -> json_decode t = Ok j
}.

(** *** encoding/json on structs of string fields *)

(** One exported string field of a struct with its [json:"..."] tag. *)
Record field (T : Type) : Type := mkField {
  tag : string;
  get : T -> string;
  set : string -> T -> T
}.
Arguments mkField {T} tag get set.
Arguments tag {T} f.
Arguments get {T} f v.
Arguments set {T} f s v.

Definition lower (a : ascii) : ascii :=
  let n := nat_of_ascii a in
  if (Nat.leb 65 n && Nat.leb n 90)%bool then ascii_of_nat (n + 32) else a.

(** A member name folded for the comparison with a field tag.  The tags of
    the services are ASCII, and under Unicode simple case folding the
    characters equal to an ASCII letter are the letter in either case, the
    Kelvin sign U+212A (bytes 226 132 170) for [k] and the long s U+017F
    (bytes 197 191) for [s]. *)
Fixpoint foldName (s : string) : string :=
  match s with
  | EmptyString => EmptyString
  | String "226" (String "132" (String "170" s')) => String "k" (foldName s')
  | String "197" (String "191" s') => String "s" (foldName s')
  | String a s' => String (lower a) (foldName s')
  end.

(** The field a member name selects: the first exact match, otherwise the
    first match under case folding. *)
Definition find_field {T} (fields : list (field T)) (name : string)
  : option (field T) :=
  match find (fun f => String.eqb (tag f) name) fields with
  | Some f => Some f
  | None => find (fun f => String.eqb (foldName (tag f)) (foldName name)) fields
  end.

(** The name encoding/json gives the kind of a JSON value in its errors. *)
Definition json_kind (j : json) : string :=
  match j with
  | JNull => "null"
  | JBool _ => "bool"
  | JNumber _ => "number"
  | JString _ => "string"
  | JArray _ => "array"
  | JObject _ => "object"
  end.

(** [UnmarshalTypeError.Error()] for a value stored in a string field of a
    struct, and for a value stored in the struct itself. *)
Definition UnmarshalTypeError (Value Struct Field : string) : error :=
  errors_New ("json: cannot unmarshal " ++ Value ++ " into Go struct field "
              ++ Struct ++ "." ++ Field ++ " of type string").
Definition UnmarshalTypeError_struct (Value Struct : string) : error :=
  errors_New ("json: cannot unmarshal " ++ Value ++ " into Go value of type main."
              ++ Struct).

(** Members are stored in order (a later duplicate overwrites); [null]
    leaves a field as it is, an unknown member is skipped, and a value that
    is not a string makes the call fail (with the error of the first such
    member). *)
Fixpoint decode_members {T} (Struct : string) (fields : list (field T))
    (ms : list (string * json)) (v : T) : result T :=
  match ms with
  | [] => Ok v
  | (name, j) :: ms' =>
      match find_field fields name with
      | None => decode_members Struct fields ms' v
      | Some f =>
          match j with
          | JNull => decode_members Struct fields ms' v
          | JString s => decode_members Struct fields ms' (set f s v)
          | _ => Err (UnmarshalTypeError (json_kind j) Struct (tag f))
          end
      end
  end.

(** Decoding a JSON value into a struct of type [Struct] that currently
    holds [v]. *)
Definition decode_struct {T} (Struct : string) (fields : list (field T))
    (j : json) (v : T) : result T :=
  match j with
  | JNull => Ok v
  | JObject ms => decode_members Struct fields ms v
  | _ => Err (UnmarshalTypeError_struct (json_kind j) Struct)
  end.

Definition encode_struct {T} (fields : list (field T)) (v : T) : json :=
  JObject (map (fun f => (tag f, JString (get f v))) fields).

(** A Go slice is [nil] or holds elements; [append] to [nil] allocates. *)
Inductive slice (A : Type) : Type :=
| nil_slice
| make_slice (elems : list A).
Arguments nil_slice {A}.
Arguments make_slice {A} elems.

Definition append {A} (s : slice A) (x : A) : slice A :=
  match s with
  | nil_slice => make_slice [x]
  | make_slice l => make_slice (l ++ [x])
  end.

Definition slice_elems {A} (s : slice A) : list A :=
  match s with
  | nil_slice => []
  | make_slice l => l
  end.

Definition len {A} (s : slice A) : nat :=
  match s with
  | nil_slice => 0%nat
  | make_slice l => length l
  end.

(** encoding/json: "Array and slice values encode as JSON arrays, except
    that ... a nil slice encodes as the null JSON value." *)
Definition encode_slice {A} (enc : A -> json) (s : slice A) : json :=
  match s with
  | nil_slice => JNull
  | make_slice l => JArray (map enc l)
  end.

(** Go's reflection-driven encoding and decoding, one instance per type. *)
Class ToJSON (A : Type) : Type := to_json : A -> json.
Class FromJSON (A : Type) : Type := from_json : json -> A -> result A.

#[global] Instance json_ToJSON : ToJSON json := fun j => j.
#[global] Instance slice_ToJSON {A} `{ToJSON A} : ToJSON (slice A) :=
  encode_slice to_json.

(** ** DynamoDB attribute values (package dynamodb/types) *)

#[local] Unset Elimination Schemes.
Inductive AttributeValue : Type :=
| AttributeValueMemberS (Value : string)
| AttributeValueMemberN (Value : string)
| AttributeValueMemberB (Value : string)
| AttributeValueMemberBOOL (Value : bool)
| AttributeValueMemberNULL (Value : bool)
| AttributeValueMemberSS (Value : list string)
| AttributeValueMemberNS (Value : list string)
| AttributeValueMemberBS (Value : list string)
| AttributeValueMemberL (Value : list AttributeValue)
| AttributeValueMemberM (Value : list (string * AttributeValue)).
#[local] Set Elimination Schemes.

(** [map[string]types.AttributeValue] *)
Abbreviation AttributeMap := (gmap string AttributeValue).

Record GetItemOutput : Type := mkGetItemOutput { Item : option AttributeMap }.
Record ScanOutput : Type := mkScanOutput {
  Items : list AttributeMap;
  LastEvaluatedKey : option AttributeMap
}.

(** ** Programs over SDK calls *)

(** A handler is a finite tree of calls: it returns, or performs a call
    and continues with the answer. *)
Inductive prog (E : Type -> Type) (R : Type) : Type :=
| Ret (r : R)
| Vis {X : Type} (e : E X) (k : X -> prog E R).
Arguments Ret {E R} r.
Arguments Vis {E R X} e k.

Fixpoint bind {E R S} (m : prog E R) (k : R -> prog E S) : prog E S :=
  match m with
  | Ret r => k r
  | Vis e h => Vis e (fun x => bind (h x) k)
  end.

Definition trigger {E X} (e : E X) : prog E X := Vis e Ret.

Notation "'let*' x := m 'in' k" := (bind m (fun x => k))
  (at level 10, x name, m at level 100, k at level 200).

Section Services.

Context {text : Type} `{!JSONText text}.

(** [json.Marshal]: never fails on the types of these services (structs of
    strings and slices of them). *)
Definition json_Marshal {A} `{ToJSON A} (v : A) : result text :=
  Ok (json_render (to_json v)).

(** [json.Unmarshal(data, &v)] *)
Definition json_Unmarshal {A} `{FromJSON A} (data : text) (v : A) : result A :=
  match json_parse data with
  | None => Err (json_syntax_error data)
  | Some j => from_json j v
  end.

(** [json.NewDecoder(r).Decode(&v)] on a reader that yields [data]: the
    first JSON value is decoded and what follows it is not read. *)
Definition json_Decoder_Decode {A} `{FromJSON A} (data : text) (v : A)
  : result A :=
  match json_decode data with
  | Err err => Err err
  | Ok j => from_json j v
  end.

(** The calls made by the services.  An [option error] answer is a Go
    [error] ([None] is [nil]). *)
Inductive sdkE : Type -> Type :=
| log_Printf (format : string) (args : list string) : sdkE unit
| redis_Get (key : string) : sdkE (result text)
| redis_Set (key : string) (value : text) (expiration : Z) : sdkE (option error)
| db_Get (query : string) (arg : string) : sdkE (result (list string))
| db_Exec (query : string) (args : list string) : sdkE (option error)
| dynamo_GetItem (TableName : string) (Key : AttributeMap) : sdkE (result GetItemOutput)
| dynamo_PutItem (TableName : string) (item : AttributeMap) : sdkE (option error)
| dynamo_Scan (TableName : string) : sdkE (result ScanOutput)
| s3_PutObject (Bucket Key : string) (Body : text) : sdkE (option error).

Definition event : Type := { X : Type & sdkE X }.
Definition ev {X} (e : sdkE X) : event := existT X e.

(** ** The stores behind one service *)

(** The stores one service talks to; no other client writes to them.
    - [redis]: the cache, key to value.
    - [mysql]: the rows of the service's table by primary key.
    - [dynamodb]: the items of table "order" by the value of their
      partition key [id].
    - [s3]: the objects of the configured bucket by key. *)
Record World : Type := mkWorld {
  redis : gmap string text;
  mysql : gmap string (list string);
  dynamodb : gmap string AttributeMap;
  s3 : gmap string text
}.

Definition empty_world : World := mkWorld ∅ ∅ ∅ ∅.

Definition with_redis (m : gmap string text) (w : World) : World :=
  mkWorld m (mysql w) (dynamodb w) (s3 w).
Definition with_mysql (m : gmap string (list string)) (w : World) : World :=
  mkWorld (redis w) m (dynamodb w) (s3 w).
Definition with_dynamodb (m : gmap string AttributeMap) (w : World) : World :=
  mkWorld (redis w) (mysql w) m (s3 w).
Definition with_s3 (m : gmap string text) (w : World) : World :=
  mkWorld (redis w) (mysql w) (dynamodb w) m.

(** What goes wrong during one request: for each kind of call, [Some err]
    makes the call return [err] and leave the store as it was.  A failure
    stands for anything that makes the client return an error: the
    network, a timeout, throttling, the service refusing the request. *)
Record Faults : Type := mkFaults {
  redis_Get_fails : option error;
  redis_Set_fails : option error;
  db_Get_fails : option error;
  db_Exec_fails : option error;
  GetItem_fails : option error;
  PutItem_fails : option error;
  Scan_fails : option error;
  PutObject_fails : option error
}.

Definition no_faults : Faults :=
  mkFaults None None None None None None None None.

(** The same faults, except for the outcome of the cache write. *)
Definition with_redis_Set_fails (e : option error) (f : Faults) : Faults :=
  mkFaults (redis_Get_fails f) e (db_Get_fails f) (db_Exec_fails f)
    (GetItem_fails f) (PutItem_fails f) (Scan_fails f) (PutObject_fails f).

Definition ValidationException : error :=
  errors_New "ValidationException: the provided key element does not match the schema".
Definition DuplicateEntry : error :=
  errors_New "Error 1062: Duplicate entry for key 'PRIMARY'".

(** Modelled from the spec: the definition of the tables [product] and
    [customers] (their DDL) is not part of the sources.  Section 3 of the
    specification declares [id] the primary key of each table, so a table
    is a finite map from the id (the first column) to the row, and an
    INSERT whose id is taken is rejected with the duplicate-key error. *)
Definition insert_row (id : string) (row : list string)
    (table : gmap string (list string)) : result (gmap string (list string)) :=
  match table !! id with
  | Some _ => Err DuplicateEntry
  | None => Ok (<[id := row]> table)
  end.

(** The answer of a call and the world after it.
    - [redis_Get]: the value, or [redis.Nil] when the key is absent.
    - [redis_Set]: stores the value (expiration 0: the key never expires).
    - [db_Get]: scans the row selected by the primary key, or fails with
      [sql.ErrNoRows].
    - [db_Exec]: inserts the row of the bound arguments ([insert_row]).
    - [dynamo_GetItem]: [Item] is [nil] when no item has the key.
    - [dynamo_PutItem]: without a condition expression the item replaces
      any item with the same key.
    - [dynamo_Scan]: answered here with all the items of the table and no
      [LastEvaluatedKey].  The service caps one answer at 1 MiB and then
      sets [LastEvaluatedKey]; that case is not produced by this model,
      and what the handlers do with any answer is stated on their
      continuations.
    - [s3_PutObject]: creates or replaces the object. *)
Definition perform (f : Faults) {X} (e : sdkE X) (w : World) : X * World :=
  match e in sdkE X return X * World with
  | log_Printf _ _ => (tt, w)
  | redis_Get key =>
      match redis_Get_fails f with
      | Some err => (Err err, w)
      | None =>
          match redis w !! key with
          | Some val => (Ok val, w)
          | None => (Err redis_Nil, w)
          end
      end
  | redis_Set key value _ =>
      match redis_Set_fails f with
      | Some err => (Some err, w)
      | None => (None, with_redis (<[key := value]> (redis w)) w)
      end
  | db_Get _ arg =>
      match db_Get_fails f with
      | Some err => (Err err, w)
      | None =>
          match mysql w !! arg with
          | Some row => (Ok row, w)
          | None => (Err sql_ErrNoRows, w)
          end
      end
  | db_Exec _ args =>
      match db_Exec_fails f with
      | Some err => (Some err, w)
      | None =>
          match args with
          | [] => (Some (errors_New "Error 1136: Column count"), w)
          | id :: _ =>
              match insert_row id args (mysql w) with
              | Err err => (Some err, w)
              | Ok table => (None, with_mysql table w)
              end
          end
      end
  | dynamo_GetItem _ key =>
      match GetItem_fails f with
      | Some err => (Err err, w)
      | None =>
          match key !! "id" with
          | Some (AttributeValueMemberS id) =>
              (Ok (mkGetItemOutput (dynamodb w !! id)), w)
          | _ => (Err ValidationException, w)
          end
      end
  | dynamo_PutItem _ item =>
      match PutItem_fails f with
      | Some err => (Some err, w)
      | None =>
          match item !! "id" with
          | Some (AttributeValueMemberS id) =>
              (None, with_dynamodb (<[id := item]> (dynamodb w)) w)
          | _ => (Some ValidationException, w)
          end
      end
  | dynamo_Scan _ =>
      match Scan_fails f with
      | Some err => (Err err, w)
      | None => (Ok (mkScanOutput (map snd (map_to_list (dynamodb w))) None), w)
      end
  | s3_PutObject _ key body =>
      match PutObject_fails f with
      | Some err => (Some err, w)
      | None => (None, with_s3 (<[key := body]> (s3 w)) w)
      end
  end.

(** Running a handler: its result, the world it leaves and the calls it
    made, in order. *)
Fixpoint run (f : Faults) {R} (p : prog sdkE R) (w : World)
  : R * World * list event :=
  match p with
  | Ret r => (r, w, [])
  | Vis e k =>
      let '(x, w1) := perform f e w in
      let '(r, w2, tr) := run f (k x) w1 in
      (r, w2, ev e :: tr)
  end.

(** ** gin *)

(** What a handler reads of the request: the query parameters in order and
    the body. *)
Record gin_Context : Type := mkContext {
  query : list (string * string);
  request_body : text
}.

(** [c.DefaultQuery(key, defaultValue)]: the first value of the parameter
    when it is present. *)
Definition DefaultQuery (c : gin_Context) (key defaultValue : string) : string :=
  match find (fun kv => String.eqb (fst kv) key) (query c) with
  | Some kv => snd kv
  | None => defaultValue
  end.

(** [c.ShouldBindJSON(&obj)]: gin decodes the body into [obj] with a
    [json.Decoder] and then validates [obj]; the structs of the services
    carry no [binding] tags, so nothing is validated. *)
Definition ShouldBindJSON {A} `{FromJSON A} (c : gin_Context) (obj : A)
  : result A :=
  json_Decoder_Decode (request_body c) obj.

(** The response written by [c.JSON(code, obj)]. *)
Record Response : Type := mkResponse {
  status : Z;
  body : json
}.

Definition c_JSON {A} `{ToJSON A} (code : Z) (obj : A) : Response :=
  mkResponse code (to_json obj).

End Services.

Arguments sdkE text : clear implicits.
Arguments event text : clear implicits.
Arguments World text : clear implicits.
Arguments gin_Context text : clear implicits.

(** * The order service (order/order.go) *)

Module order.

Record Order : Type := mkOrder {
  ID : string;
  CustomerID : string;
  ProductID : string
}.

Definition with_ID (v : string) (o : Order) : Order :=
  mkOrder v (CustomerID o) (ProductID o).
Definition with_CustomerID (v : string) (o : Order) : Order :=
  mkOrder (ID o) v (ProductID o).
Definition with_ProductID (v : string) (o : Order) : Order :=
  mkOrder (ID o) (CustomerID o) v.

(** [var order Order] *)
Definition zero : Order := mkOrder "" "" "".

(** The fields with their [json] tags. *)
Definition fields : list (field Order) :=
  [ mkField "id" ID with_ID;
    mkField "customerid" CustomerID with_CustomerID;
    mkField "productid" ProductID with_ProductID ].

#[global] Instance Order_ToJSON : ToJSON Order := encode_struct fields.
#[global] Instance Order_FromJSON : FromJSON Order := decode_struct "Order" fields.

Section Handlers.

Context {text : Type} `{!JSONText text}.

(** [s3AccessPointARN = os.Getenv("S3_ACCESS_POINT_ARN")] *)
Variable s3AccessPointARN : string.

Abbreviation M := (prog (sdkE text)).

(** The three type assertions shared by the single read and the scan:
    the field is stored only when the attribute is present and is an
    [AttributeValueMemberS]. *)
Definition assign_S (item : AttributeMap) (name : string)
    (store : string -> Order -> Order) (order : Order) : Order :=
  match item !! name with
  | Some (AttributeValueMemberS Value) => store Value order
  | _ => order
  end.

Definition getOrderFromDynamoDB (orderID : string) : M (result (option Order)) :=
  let* r := trigger (dynamo_GetItem "order"
                       {[ "id" := AttributeValueMemberS orderID ]}) in
  match r with
  | Err err =>
      let* _ := trigger (log_Printf
        "Error fetching order from DynamoDB for orderID %s: %v"
        [orderID; Error err]) in
      Ret (Err err)
  | Ok result =>
      match Item result with
      | None => Ret (Ok None)
      | Some item =>
          let order := zero in
          let order := assign_S item "id" with_ID order in
          let order := assign_S item "customerid" with_CustomerID order in
          let order := assign_S item "productid" with_ProductID order in
          Ret (Ok (Some order))
      end
  end.

Definition saveOrderToDynamoDB (order : Order) : M (option error) :=
  let input : AttributeMap :=
    {[ "id" := AttributeValueMemberS (ID order);
       "customerid" := AttributeValueMemberS (CustomerID order);
       "productid" := AttributeValueMemberS (ProductID order) ]} in
  let* err := trigger (dynamo_PutItem "order" input) in
  match err with
  | Some err =>
      let* _ := trigger (log_Printf
        "Error saving order to DynamoDB for orderID %s: %v"
        [ID order; Error err]) in
      Ret (Some err)
  | None =>
      let* _ := trigger (log_Printf
        "Successfully saved order to DynamoDB for orderID %s" [ID order]) in
      Ret None
  end.

(** The body of the [for _, item := range result.Items] loop. *)
Definition scan_item (orders : slice Order) (item : AttributeMap) : slice Order :=
  let order := zero in
  let order := assign_S item "id" with_ID order in
  let order := assign_S item "customerid" with_CustomerID order in
  let order := assign_S item "productid" with_ProductID order in
  append orders order.

Definition getAllOrdersFromDynamoDB : M (result (slice Order)) :=
  let orders : slice Order := nil_slice in
  let* r := trigger (dynamo_Scan "order") in
  match r with
  | Err err => Ret (Err err)
  | Ok result => Ret (Ok (fold_left scan_item (Items result) orders))
  end.

Definition saveDataToS3 (data : text) : M (option error) :=
  let objectKey := "orders_data.json" in
  let* err := trigger (s3_PutObject s3AccessPointARN objectKey data) in
  match err with
  | Some err =>
      let* _ := trigger (log_Printf "Error saving data to S3: %v" [Error err]) in
      Ret (Some err)
  | None =>
      let* _ := trigger (log_Printf "Successfully saved data to S3" []) in
      Ret None
  end.

Definition getOrder (c : gin_Context text) : M Response :=
  let orderID := DefaultQuery c "id" "" in
  let* r := getOrderFromDynamoDB orderID in
  match r with
  | Err err =>
      let* _ := trigger (log_Printf
        "Failed to fetch order from DynamoDB for orderID %s: %v"
        [orderID; Error err]) in
      Ret (c_JSON StatusInternalServerError (gin_H "error" "failed to fetch order"))
  | Ok None =>
      Ret (c_JSON StatusNotFound (gin_H "error" "order not found"))
  | Ok (Some orderData) =>
      Ret (c_JSON StatusOK orderData)
  end.

Definition createOrder (c : gin_Context text) : M Response :=
  match ShouldBindJSON c zero with
  | Err err => Ret (c_JSON StatusBadRequest (gin_H "error" (Error err)))
  | Ok order =>
      let* err := saveOrderToDynamoDB order in
      match err with
      | Some err =>
          let* _ := trigger (log_Printf
            "Failed to save order to DynamoDB for orderID %s: %v"
            [ID order; Error err]) in
          Ret (c_JSON StatusInternalServerError (gin_H "error" "failed to save order"))
      | None =>
          Ret (c_JSON StatusCreated (gin_H "message" "Order created successfully"))
      end
  end.

Definition saveOrdersToS3 (c : gin_Context text) : M Response :=
  let* r := getAllOrdersFromDynamoDB in
  match r with
  | Err err =>
      let* _ := trigger (log_Printf
        "Failed to fetch orders from DynamoDB: %v" [Error err]) in
      Ret (c_JSON StatusInternalServerError (gin_H "error" "failed to fetch orders"))
  | Ok orders =>
      match json_Marshal orders with
      | Err err =>
          let* _ := trigger (log_Printf
            "Failed to marshal orders: %v" [Error err]) in
          Ret (c_JSON StatusInternalServerError (gin_H "error" "failed to marshal orders"))
      | Ok data =>
          let* err := saveDataToS3 data in
          match err with
          | Some err =>
              let* _ := trigger (log_Printf
                "Failed to save data to S3: %v" [Error err]) in
              Ret (c_JSON StatusInternalServerError (gin_H "error" "failed to save data to S3"))
          | None =>
              Ret (c_JSON StatusOK (gin_H "message" "Orders saved to S3 successfully"))
          end
      end
  end.

End Handlers.

End order.

(** * The cache-aside services (product/product.go, customer/customer.go)

    The two files are the same program up to the struct, the table and the
    words "product" and "customer" in messages; [Entity] collects what
    differs and the program is written once. *)

Module cache_aside.

Class Entity (T : Type) : Type := {
  (** "product" or "customer", as spelled in log and error messages *)
  noun : string;
  (** "Product" or "Customer", in the confirmation message *)
  Noun : string;
  (** the zero value of the struct: [var product Product] *)
  zero : T;
  (** [product.ID] *)
  entity_ID : T -> string;
  (** the statements of [getFromDB] and [saveToDB] *)
  selectQuery : string;
  insertQuery : string;
  (** the arguments bound to the placeholders of [insertQuery] *)
  exec_args : T -> list string;
  (** sqlx: the selected columns of a row stored in the fields of the same
      (lower-cased) names *)
  scan : list string -> T -> result T;
  Entity_ToJSON :: ToJSON T;
  Entity_FromJSON :: FromJSON T
}.

Section Handlers.

Context {text : Type} `{!JSONText text}.
Context {T : Type} `{!Entity T}.

Abbreviation M := (prog (sdkE text)).

(** [db.Get(&dest, query, arg)] *)
Definition db_Get_into (query arg : string) (dest : T) : M (result T) :=
  let* r := trigger (db_Get query arg) in
  match r with
  | Err err => Ret (Err err)
  | Ok row => Ret (scan row dest)
  end.

Definition getFromCache (id : string) : M (result (option T)) :=
  let* r := trigger (redis_Get id) in
  match r with
  | Err redis_Nil =>
      let* _ := trigger (log_Printf
        ("No cache found for " ++ noun ++ "ID: %s") [id]) in
      Ret (Ok None)
  | Err err =>
      let* _ := trigger (log_Printf
        ("Error fetching from Redis for " ++ noun ++ "ID %s: %v")
        [id; Error err]) in
      Ret (Err err)
  | Ok val =>
      match json_Unmarshal val zero with
      | Err err =>
          let* _ := trigger (log_Printf
            ("Error unmarshalling data for " ++ noun ++ "ID %s: %v")
            [id; Error err]) in
          Ret (Err err)
      | Ok product => Ret (Ok (Some product))
      end
  end.

Definition saveToCache (product : T) : M unit :=
  match json_Marshal product with
  | Err err =>
      trigger (log_Printf ("Failed to marshal " ++ noun ++ ": %v") [Error err])
  | Ok data =>
      let* err := trigger (redis_Set (entity_ID product) data 0) in
      match err with
      | Some err =>
          trigger (log_Printf
            ("Failed to save to cache for " ++ noun ++ "ID %s: %v")
            [entity_ID product; Error err])
      | None =>
          trigger (log_Printf
            ("Successfully saved to cache for " ++ noun ++ "ID %s")
            [entity_ID product])
      end
  end.

Definition getFromDB (id : string) : M (result T) :=
  let sqlQuery := selectQuery in
  let* r := db_Get_into sqlQuery id zero in
  match r with
  | Err err =>
      let* _ := trigger (log_Printf
        ("Error fetching from DB for " ++ noun ++ "ID %s: %v")
        [id; Error err]) in
      Ret (Err err)
  | Ok product => Ret (Ok product)
  end.

Definition saveToDB (product : T) : M (option error) :=
  let sqlQuery := insertQuery in
  let* err := trigger (db_Exec sqlQuery (exec_args product)) in
  match err with
  | Some err =>
      let* _ := trigger (log_Printf
        ("Error saving to DB for " ++ noun ++ "ID %s: %v")
        [entity_ID product; Error err]) in
      Ret (Some err)
  | None =>
      let* _ := trigger (log_Printf
        ("Successfully saved to DB for " ++ noun ++ "ID %s")
        [entity_ID product]) in
      Ret None
  end.

(** [getProduct] / [getCustomer] *)
Definition getRecord (c : gin_Context text) : M Response :=
  let id := DefaultQuery c "id" "" in
  let* r := getFromCache id in
  match r with
  | Err err =>
      let* _ := trigger (log_Printf
        ("Failed to fetch from cache for " ++ noun ++ "ID %s: %v")
        [id; Error err]) in
      Ret (c_JSON StatusInternalServerError
             (gin_H "error" "failed to fetch from cache"))
  | Ok (Some productData) =>
      Ret (c_JSON StatusOK productData)
  | Ok None =>
      let* r := getFromDB id in
      match r with
      | Err err =>
          let* _ := trigger (log_Printf
            ("Failed to fetch from DB for " ++ noun ++ "ID %s: %v")
            [id; Error err]) in
          Ret (c_JSON StatusInternalServerError
                 (gin_H "error" "failed to fetch from DB"))
      | Ok productData =>
          let* _ := saveToCache productData in
          Ret (c_JSON StatusOK productData)
      end
  end.

(** [createProduct] / [createCustomer] *)
Definition createRecord (c : gin_Context text) : M Response :=
  match ShouldBindJSON c zero with
  | Err err => Ret (c_JSON StatusBadRequest (gin_H "error" (Error err)))
  | Ok product =>
      let* err := saveToDB product in
      match err with
      | Some err =>
          let* _ := trigger (log_Printf
            ("Failed to save to DB for " ++ noun ++ "ID %s: %v")
            [entity_ID product; Error err]) in
          Ret (c_JSON StatusInternalServerError
                 (gin_H "error" "failed to save to DB"))
      | None =>
          let* _ := saveToCache product in
          Ret (c_JSON StatusCreated
                 (gin_H "message" (Noun ++ " created successfully")))
      end
  end.

End Handlers.

End cache_aside.

#[global] Existing Instance cache_aside.Entity_ToJSON.
#[global] Existing Instance cache_aside.Entity_FromJSON.

Module product.

Record Product : Type := mkProduct {
  ID : string;
  Name : string;
  Category : string
}.

Definition with_ID (v : string) (p : Product) : Product :=
  mkProduct v (Name p) (Category p).
Definition with_Name (v : string) (p : Product) : Product :=
  mkProduct (ID p) v (Category p).
Definition with_Category (v : string) (p : Product) : Product :=
  mkProduct (ID p) (Name p) v.

Definition fields : list (field Product) :=
  [ mkField "id" ID with_ID;
    mkField "name" Name with_Name;
    mkField "category" Category with_Category ].

#[global] Instance Product_Entity : cache_aside.Entity Product := {|
  cache_aside.noun := "product";
  cache_aside.Noun := "Product";
  cache_aside.zero := mkProduct "" "" "";
  cache_aside.entity_ID := ID;
  cache_aside.selectQuery := "SELECT id, name, category FROM product WHERE id = ?";
  cache_aside.insertQuery := "INSERT INTO product (id, name, category) VALUES (?, ?, ?)";
  cache_aside.exec_args := fun product => [ID product; Name product; Category product];
  cache_aside.scan := fun row dest =>
    match row with
    | [id; name; category] =>
        Ok (with_Category category (with_Name name (with_ID id dest)))
    | _ => Err (errors_New "sql: column count does not match the destination")
    end;
  cache_aside.Entity_ToJSON := encode_struct fields;
  cache_aside.Entity_FromJSON := decode_struct "Product" fields
|}.

Section Handlers.
Context {text : Type} `{!JSONText text}.

Definition getProduct : gin_Context text -> prog (sdkE text) Response :=
  cache_aside.getRecord (T := Product).
Definition createProduct : gin_Context text -> prog (sdkE text) Response :=
  cache_aside.createRecord (T := Product).

End Handlers.

End product.

Module customer.

Record Customer : Type := mkCustomer {
  ID : string;
  Name : string;
  Gender : string
}.

Definition with_ID (v : string) (p : Customer) : Customer :=
  mkCustomer v (Name p) (Gender p).
Definition with_Name (v : string) (p : Customer) : Customer :=
  mkCustomer (ID p) v (Gender p).
Definition with_Gender (v : string) (p : Customer) : Customer :=
  mkCustomer (ID p) (Name p) v.

Definition fields : list (field Customer) :=
  [ mkField "id" ID with_ID;
    mkField "name" Name with_Name;
    mkField "gender" Gender with_Gender ].

#[global] Instance Customer_Entity : cache_aside.Entity Customer := {|
  cache_aside.noun := "customer";
  cache_aside.Noun := "Customer";
  cache_aside.zero := mkCustomer "" "" "";
  cache_aside.entity_ID := ID;
  cache_aside.selectQuery := "SELECT id, name, gender FROM customers WHERE id = ?";
  cache_aside.insertQuery := "INSERT INTO customers (id, name, gender) VALUES (?, ?, ?)";
  cache_aside.exec_args := fun customer => [ID customer; Name customer; Gender customer];
  cache_aside.scan := fun row dest =>
    match row with
    | [id; name; gender] =>
        Ok (with_Gender gender (with_Name name (with_ID id dest)))
    | _ => Err (errors_New "sql: column count does not match the destination")
    end;
  cache_aside.Entity_ToJSON := encode_struct fields;
  cache_aside.Entity_FromJSON := decode_struct "Customer" fields
|}.

Section Handlers.
Context {text : Type} `{!JSONText text}.

Definition getCustomer : gin_Context text -> prog (sdkE text) Response :=
  cache_aside.getRecord (T := Customer).
Definition createCustomer : gin_Context text -> prog (sdkE text) Response :=
  cache_aside.createRecord (T := Customer).

End Handlers.

End customer.

(** * A reference instance of [JSONText]

    A byte string is identified with the JSON value it spells when it
    spells one; [Trailing j rest] is the text of [j] followed by bytes
    [rest] that are not white space (not a JSON value as a whole, but a
    stream whose first value is [j]); any other byte string is kept as it
    is.  Used to run the services on concrete requests. *)

Inductive payload : Type :=
| Document (j : json)
| Trailing (j : json) (rest : string)
| Garbage (bytes : string).

Definition payload_parse (t : payload) : option json :=
  match t with
  | Document j => Some j
  | Trailing _ _ | Garbage _ => None
  end.

Definition payload_decode (t : payload) : result json :=
  match t with
  | Document j | Trailing j _ => Ok j
  | Garbage "" => Err (errors_New "EOF")
  | Garbage _ => Err (errors_New "invalid character looking for beginning of value")
  end.

#[global] Instance payload_JSONText : JSONText payload := {|
  json_render := Document;
  json_parse := payload_parse;
  json_syntax_error :=
    fun _ => errors_New "invalid character looking for beginning of value";
  json_decode := payload_decode;
  json_parse_render := fun j => eq_refl;
  json_decode_parse :=
    ltac:(intros [j'|j' rest|bytes] j H; simpl in *; congruence)
|}.

(** Sample requests and records. *)
Module sample.

Definition order_body : payload :=
  Document (JObject [("id", JString "o1"); ("customerid", JString "c1");
                     ("productid", JString "p1")]).
Definition the_order : order.Order := order.mkOrder "o1" "c1" "p1".

Definition product_body : payload :=
  Document (JObject [("id", JString "p1"); ("name", JString "teapot");
                     ("category", JString "kitchen")]).
Definition the_product : product.Product :=
  product.mkProduct "p1" "teapot" "kitchen".

Definition customer_body : payload :=
  Document (JObject [("id", JString "c1"); ("name", JString "Ada");
                     ("gender", JString "F")]).
Definition the_customer : customer.Customer :=
  customer.mkCustomer "c1" "Ada" "F".

(** A POST with the given body and a GET with the given [id] parameter. *)
Definition post (body : payload) : gin_Context payload := mkContext [] body.
Definition get_id (id : string) : gin_Context payload :=
  mkContext [("id", id)] (Garbage "").

Definition arn : string := "arn:aws:s3:eu-west-1:000000000000:accesspoint/orders".

(** Faults: the database is unreachable; the cache is unreachable. *)
Definition db_down : Faults :=
  let e := Some (errors_New "dial tcp: connection refused") in
  mkFaults None None e e None None None None.
Definition cache_down : Faults :=
  let e := Some (errors_New "dial tcp: i/o timeout") in
  mkFaults e e None None None None None None.

(** An order table that holds an order with id "o1" for another customer
    and product. *)
Definition earlier_order : order.Order := order.mkOrder "o1" "c0" "p0".
Definition order_stored : World payload :=
  mkWorld ∅ ∅
    {[ "o1" := {[ "id" := AttributeValueMemberS "o1";
                  "customerid" := AttributeValueMemberS "c0";
                  "productid" := AttributeValueMemberS "p0" ]} ]} ∅.

(** The cache accepts no write. *)
Definition cache_read_only : Faults :=
  with_redis_Set_fails
    (Some (errors_New "READONLY You can't write against a read only replica."))
    no_faults.

(** A customer service whose table holds the row of the customer and
    whose cache is empty. *)
Definition customer_stored : World payload :=
  mkWorld ∅ {[ "c1" := ["c1"; "Ada"; "F"] ]} ∅ ∅.

(** A product service whose cache holds the product and whose table holds
    its row. *)
Definition product_cached : World payload :=
  mkWorld {[ "p1" := Document (to_json the_product) ]}
          {[ "p1" := ["p1"; "teapot"; "kitchen"] ]} ∅ ∅.

End sample.

(** * Vocabulary of the properties *)

Section Vocabulary.

Context {text : Type}.

(** The calls that reach the primary store of a service (the MySQL table
    or the DynamoDB table). *)
Definition touches_primary_store (e : event text) : bool :=
  match projT2 e with
  | db_Get _ _ | db_Exec _ _
  | dynamo_GetItem _ _ | dynamo_PutItem _ _ | dynamo_Scan _ => true
  | _ => false
  end.

(** The calls that write to a store, the cache or the bucket. *)
Definition is_write (e : event text) : bool :=
  match projT2 e with
  | redis_Set _ _ _ | db_Exec _ _ | dynamo_PutItem _ _ | s3_PutObject _ _ _ => true
  | _ => false
  end.

(** The order the three assignments of the order service build from an
    item. *)
Definition order_of_item (item : AttributeMap) : order.Order :=
  order.assign_S item "productid" order.with_ProductID
    (order.assign_S item "customerid" order.with_CustomerID
       (order.assign_S item "id" order.with_ID order.zero)).

(** The item [saveOrderToDynamoDB] puts for an order. *)
Definition item_of_order (o : order.Order) : AttributeMap :=
  {[ "id" := AttributeValueMemberS (order.ID o);
     "customerid" := AttributeValueMemberS (order.CustomerID o);
     "productid" := AttributeValueMemberS (order.ProductID o) ]}.

(** The slice the scan loop builds from the items of a table. *)
Definition orders_of_items (items : list AttributeMap) : slice order.Order :=
  fold_left order.scan_item items nil_slice.

(** The value read for attribute [name] is the string of the attribute
    when it is present and of string type, and the empty string when it is
    missing or of another type. *)
Definition read_lossily (item : AttributeMap) (name : string) (value : string)
  : Prop :=
  match item !! name with
  | Some (AttributeValueMemberS v) => value = v
  | _ => value = ""
  end.

End Vocabulary.

(** The three components of a run. *)
Section Outcome.

Context {text : Type} {R : Type}.

Definition response_of (x : R * World text * list (event text)) : R := fst (fst x).
Definition world_of (x : R * World text * list (event text)) : World text := snd (fst x).
Definition calls_of (x : R * World text * list (event text)) : list (event text) := snd x.

End Outcome.

(** Requests to the order service, served one after the other (the three
    routes registered by [main]). *)
Module order_server.

Section Serve.

Context {text : Type} `{!JSONText text}.
Variable s3AccessPointARN : string.

Inductive request : Type :=
| GET_order (c : gin_Context text)
| POST_order (c : gin_Context text)
| POST_s3_order (c : gin_Context text).

Definition handler (r : request) : prog (sdkE text) Response :=
  match r with
  | GET_order c => order.getOrder c
  | POST_order c => order.createOrder c
  | POST_s3_order c => order.saveOrdersToS3 s3AccessPointARN c
  end.

(** The world after a request served under faults [f]. *)
Definition serve (w : World text) (fr : Faults * request) : World text :=
  world_of (run (fst fr) (handler (snd fr)) w).

Definition serve_all (w : World text) (l : list (Faults * request)) : World text :=
  fold_left serve l w.

(** A request that asks to create an order with the given id. *)
Definition creates (id : string) (fr : Faults * request) : Prop :=
  match snd fr with
  | POST_order c =>
      match ShouldBindJSON c order.zero with
      | Ok o => order.ID o = id
      | Err _ => False
      end
  | _ => False
  end.

End Serve.

Arguments request text : clear implicits.

End order_server.

(** Requests to a cache-aside service (the two routes registered by
    [main]). *)
Module cache_aside_server.

Section Serve.

Context {text : Type} `{!JSONText text}.
Context {T : Type} `{!cache_aside.Entity T}.

Inductive request : Type :=
| GET (c : gin_Context text)
| POST (c : gin_Context text).

Definition handler (r : request) : prog (sdkE text) Response :=
  match r with
  | GET c => cache_aside.getRecord c
  | POST c => cache_aside.createRecord c
  end.

Definition serve (w : World text) (fr : Faults * request) : World text :=
  world_of (run (fst fr) (handler (snd fr)) w).

Definition serve_all (w : World text) (l : list (Faults * request)) : World text :=
  fold_left serve l w.

(** Every row was written by an insert of a struct with that id. *)
Definition table_ok (w : World text) : Prop :=
  forall k row, mysql w !! k = Some row ->
    exists p : T, row = cache_aside.exec_args p /\ cache_aside.entity_ID p = k.

(** Every cache entry is the encoding of the struct whose row the table
    holds under the same id. *)
Definition cache_ok (w : World text) : Prop :=
  forall k data, redis w !! k = Some data ->
    exists p : T, data = json_render (to_json p) /\
                  cache_aside.entity_ID p = k /\
                  mysql w !! k = Some (cache_aside.exec_args p).

(** Every cache entry under a key decodes to the struct that the row
    stored under that id scans to. *)
Definition cache_coherent (w : World text) : Prop :=
  forall k data, redis w !! k = Some data ->
    exists (p : T) row,
      json_Unmarshal data cache_aside.zero = Ok p /\
      mysql w !! k = Some row /\
      cache_aside.scan row cache_aside.zero = Ok p /\
      cache_aside.entity_ID p = k.

(** The states of a service started on empty stores. *)
Inductive reachable : World text -> Prop :=
| reachable_empty : reachable empty_world
| reachable_serve w fr : reachable w -> reachable (serve w fr).

End Serve.

Arguments request text : clear implicits.

End cache_aside_server.

(** What the proofs need of an [Entity]: the first bound argument of the
    insert is the id, a row written by the insert scans back to the
    struct, and so does its JSON encoding. *)
Class EntityLaws (T : Type) `{!cache_aside.Entity T} : Prop := {
  exec_args_ID : forall p : T,
    exists rest, cache_aside.exec_args p = cache_aside.entity_ID p :: rest;
  scan_exec_args : forall p dest : T,
    cache_aside.scan (cache_aside.exec_args p) dest = Ok p;
  from_json_to_json : forall p dest : T,
    from_json (to_json p) dest = Ok p
}.

(** * Startup: package variables, [init] and [main]

    What a process does before it serves: the initialisers of the
    package-level variables, [init], then [main] up to [router.Run]. *)

Module startup.

(** The calls of the startup code.  [H] is the type of the handlers passed
    to the router.  [log.Fatalf] prints and exits: it has no answer. *)
Inductive bootE (H : Type) : Type -> Type :=
| os_Getenv (key : string) : bootE H string
| config_LoadDefaultConfig (region : string) : bootE H (option error)
| NewFromConfig (service : string) : bootE H unit
| redis_NewClient (Addr : string) : bootE H unit
| redis_Ping : bootE H (option error)
| sqlx_Connect (driverName dataSourceName : string) : bootE H (option error)
| log_Printf (format : string) (args : list string) : bootE H unit
| log_Println (line : string) : bootE H unit
| log_Fatalf (format : string) (args : list string) : bootE H Empty_set
| gin_Default : bootE H unit
| router_Run (addr : string) (routes : list (string * string * H)) : bootE H unit.
Arguments os_Getenv {H} key.
Arguments config_LoadDefaultConfig {H} region.
Arguments NewFromConfig {H} service.
Arguments redis_NewClient {H} Addr.
Arguments redis_Ping {H}.
Arguments sqlx_Connect {H} driverName dataSourceName.
Arguments log_Printf {H} format args.
Arguments log_Println {H} line.
Arguments log_Fatalf {H} format args.
Arguments gin_Default {H}.
Arguments router_Run {H} addr routes.

Definition boot_event (H : Type) : Type := { X : Type & bootE H X }.
Definition bev {H X} (e : bootE H X) : boot_event H := existT X e.

(** The machine a process starts on: its environment variables, and
    whether loading the SDK configuration, the first Redis round trip and
    the connection to MySQL fail. *)
Record Host : Type := mkHost {
  environ : gmap string string;
  LoadDefaultConfig_fails : option error;
  Ping_fails : option error;
  Connect_fails : option error
}.

(** The same host, except for the outcome of the first Redis round trip. *)
Definition with_Ping_fails (e : option error) (h : Host) : Host :=
  mkHost (environ h) (LoadDefaultConfig_fails h) e (Connect_fails h).

(** [os.Getenv]: the empty string for a variable that is not set. *)
Definition Getenv (h : Host) (key : string) : string :=
  default "" (environ h !! key).

(** The answer of a call; [None] for the call that does not return. *)
Definition answer {H} (h : Host) {X} (e : bootE H X) : option X :=
  match e in bootE _ X return option X with
  | os_Getenv key => Some (Getenv h key)
  | config_LoadDefaultConfig _ => Some (LoadDefaultConfig_fails h)
  | NewFromConfig _ => Some tt
  | redis_NewClient _ => Some tt
  | redis_Ping => Some (Ping_fails h)
  | sqlx_Connect _ _ => Some (Connect_fails h)
  | log_Printf _ _ => Some tt
  | log_Println _ => Some tt
  | log_Fatalf _ _ => None
  | gin_Default => Some tt
  | router_Run _ _ => Some tt
  end.

(** Running the startup code: its result ([None] when the process has
    exited) and the calls made, in order. *)
Fixpoint boot {H} (h : Host) {R} (p : prog (bootE H) R)
  : option R * list (boot_event H) :=
  match p with
  | Ret r => (Some r, [])
  | Vis e k =>
      match answer h e with
      | None => (None, [bev e])
      | Some x =>
          let '(r, tr) := boot h (k x) in
          (r, bev e :: tr)
      end
  end.

(** [if err != nil { log.Fatalf(format, err) }] *)
Definition fatal_if {H} (err : option error) (format : string)
  : prog (bootE H) unit :=
  match err with
  | Some err =>
      let* x := trigger (log_Fatalf format [Error err]) in
      match x : Empty_set with end
  | None => Ret tt
  end.

(** The calls that construct or use a connection to Redis or MySQL. *)
Definition contacts_store {H} (e : boot_event H) : bool :=
  match projT2 e with
  | redis_NewClient _ | redis_Ping | sqlx_Connect _ _ => true
  | _ => false
  end.

(** The routes a process ends up serving, if it does. *)
Definition served {H} (tr : list (boot_event H))
  : option (string * list (string * string * H)) :=
  match last tr with
  | Some (existT _ (router_Run addr routes)) => Some (addr, routes)
  | _ => None
  end.

(** The handler registered for a method and a path. *)
Definition route {H} (routes : list (string * string * H))
    (method path : string) : option H :=
  match find (fun r => String.eqb (fst (fst r)) method
                       && String.eqb (snd (fst r)) path)%bool routes with
  | Some r => Some (snd r)
  | None => None
  end.

End startup.

(** Startup of the order service (order/order.go). *)
Module order_startup.

Import startup.

Section Process.

Context {text : Type} `{!JSONText text}.

Abbreviation handler := (gin_Context text -> prog (sdkE text) Response).

(** The package-level variables read from the environment. *)
Record vars : Type := mkVars {
  region : string;
  s3AccessPointARN : string
}.

Definition package_vars : prog (bootE handler) vars :=
  let* region := trigger (os_Getenv "AWS_REGION") in
  let* s3AccessPointARN := trigger (os_Getenv "S3_ACCESS_POINT_ARN") in
  Ret (mkVars region s3AccessPointARN).

Definition init (v : vars) : prog (bootE handler) unit :=
  let* err := trigger (config_LoadDefaultConfig (region v)) in
  let* _ := fatal_if err "unable to load SDK config, %v" in
  let* _ := trigger (NewFromConfig "dynamodb") in
  trigger (NewFromConfig "s3").

Definition main (v : vars) : prog (bootE handler) unit :=
  let* _ := trigger gin_Default in
  trigger (router_Run ":8080"
             [ ("GET", "/v1/order", order.getOrder);
               ("POST", "/v1/order", order.createOrder);
               ("POST", "/v1/s3/order", order.saveOrdersToS3 (s3AccessPointARN v)) ]).

Definition process : prog (bootE handler) unit :=
  let* v := package_vars in
  let* _ := init v in
  main v.

End Process.

End order_startup.

(** Startup of the product and customer services (product/product.go,
    customer/customer.go): the same code up to the name of the region
    variable and the path of the routes. *)
Module cache_aside_startup.

Import startup.

Section Process.

Context {text : Type} `{!JSONText text}.
Context {T : Type} `{!cache_aside.Entity T}.

(** "REGION" for products, "AWS_REGION" for customers *)
Variable region_key : string.
(** "/v1/product" or "/v1/customer" *)
Variable path : string.

Abbreviation handler := (gin_Context text -> prog (sdkE text) Response).

Record vars : Type := mkVars {
  mysqlUser : string;
  mysqlPassword : string;
  mysqlHost : string;
  mysqlPort : string;
  mysqlDbName : string;
  redisAddr : string;
  redisPort : string;
  region : string
}.

Definition package_vars : prog (bootE handler) vars :=
  let* mysqlUser := trigger (os_Getenv "MYSQL_USER") in
  let* mysqlPassword := trigger (os_Getenv "MYSQL_PASSWORD") in
  let* mysqlHost := trigger (os_Getenv "MYSQL_HOST") in
  let* mysqlPort := trigger (os_Getenv "MYSQL_PORT") in
  let* mysqlDbName := trigger (os_Getenv "MYSQL_DBNAME") in
  let* redisAddr := trigger (os_Getenv "REDIS_HOST") in
  let* redisPort := trigger (os_Getenv "REDIS_PORT") in
  let* region := trigger (os_Getenv region_key) in
  Ret (mkVars mysqlUser mysqlPassword mysqlHost mysqlPort mysqlDbName
         redisAddr redisPort region).

Definition checkRedisConnection : prog (bootE handler) unit :=
  let* err := trigger redis_Ping in
  match err with
  | Some err => trigger (log_Printf "Redis connection error: %v" [Error err])
  | None => trigger (log_Println "Connected to Redis successfully")
  end.

Definition init (v : vars) : prog (bootE handler) unit :=
  let* err := trigger (config_LoadDefaultConfig (region v)) in
  let* _ := fatal_if err "unable to load SDK config, %v" in
  let* _ := trigger (NewFromConfig "rdsdata") in
  let* _ := trigger (redis_NewClient (redisAddr v ++ ":" ++ redisPort v)) in
  checkRedisConnection.

(** [fmt.Sprintf("%s:%s@tcp(%s:%s)/%s", ...)] *)
Definition dsn (v : vars) : string :=
  mysqlUser v ++ ":" ++ mysqlPassword v ++ "@tcp(" ++ mysqlHost v ++ ":"
  ++ mysqlPort v ++ ")/" ++ mysqlDbName v.

Definition main (v : vars) : prog (bootE handler) unit :=
  let dsn := dsn v in
  let* err := trigger (sqlx_Connect "mysql" dsn) in
  let* _ := fatal_if err "failed to connect to RDS: %v" in
  let* _ := trigger gin_Default in
  trigger (router_Run ":8080"
             [ ("GET", path, cache_aside.getRecord (T := T));
               ("POST", path, cache_aside.createRecord (T := T)) ]).

Definition process : prog (bootE handler) unit :=
  let* v := package_vars in
  let* _ := init v in
  main v.

End Process.

End cache_aside_startup.

(** The two instances. *)
Module product_startup.

Section Process.
Context {text : Type} `{!JSONText text}.

Definition process
  : prog (startup.bootE (gin_Context text -> prog (sdkE text) Response)) unit :=
  cache_aside_startup.process (T := product.Product) "REGION" "/v1/product".

End Process.

End product_startup.

Module customer_startup.

Section Process.
Context {text : Type} `{!JSONText text}.

Definition process
  : prog (startup.bootE (gin_Context text -> prog (sdkE text) Response)) unit :=
  cache_aside_startup.process (T := customer.Customer) "AWS_REGION" "/v1/customer".

End Process.

End customer_startup.

(** Sample hosts. *)
Module sample_host.

(** Everything is configured and reachable. *)
Definition healthy : startup.Host :=
  startup.mkHost
    {[ "MYSQL_USER" := "shop"; "MYSQL_PASSWORD" := "secret";
       "MYSQL_HOST" := "db.internal"; "MYSQL_PORT" := "3306";
       "MYSQL_DBNAME" := "shop"; "REDIS_HOST" := "cache.internal";
       "REDIS_PORT" := "6379"; "REGION" := "eu-west-1";
       "AWS_REGION" := "eu-west-1";
       "S3_ACCESS_POINT_ARN" := sample.arn ]}
    None None None.

(** The same host with Redis unreachable. *)
Definition no_redis : startup.Host :=
  startup.mkHost (startup.environ healthy) None
    (Some (errors_New "dial tcp: i/o timeout")) None.

(** No variable is set; the SDK configuration still loads. *)
Definition bare : startup.Host := startup.mkHost ∅ None None None.

End sample_host.

(** A cache write, and a write to the primary store. *)
Definition is_cache_write {text : Type} (e : event text) : bool :=
  match projT2 e with
  | redis_Set _ _ _ => true
  | _ => false
  end.

Definition writes_primary_store {text : Type} (e : event text) : bool :=
  (is_write e && touches_primary_store e)%bool.

(** * Properties *)

(** ** Running programs *)

Section RunFacts.

Context {text : Type} `{!JSONText text}.

Lemma run_bind f {R S} (m : prog (sdkE text) R) (k : R -> prog (sdkE text) S) w :
  run f (bind m k) w =
  let '(r, w1, t1) := run f m w in
  let '(s, w2, t2) := run f (k r) w1 in
  (s, w2, (t1 ++ t2)%list).
Proof.
  revert w. induction m as [r | X e h IH]; intros w; simpl.
  - destruct (run f (k r) w) as [[s w2] t2]. reflexivity.
  - destruct (perform f e w) as [x w1]. rewrite IH.
    destruct (run f (h x) w1) as [[r w2] t1].
    destruct (run f (k r) w2) as [[s w3] t2]. reflexivity.
Qed.

Lemma run_trigger f {X} (e : sdkE text X) w :
  run f (trigger e) w = (fst (perform f e w), snd (perform f e w), [ev e]).
Proof. simpl. destruct (perform f e w). reflexivity. Qed.

Lemma run_log f format args w :
  run f (trigger (log_Printf format args)) w =
  (tt, w, [ev (text := text) (log_Printf format args)]).
Proof. reflexivity. Qed.

End RunFacts.

(** ** The order service *)

Section OrderFacts.

Context {text : Type} `{!JSONText text}.
Variable arn : string.

Lemma lookup_key_id (id : string) :
  ({[ "id" := AttributeValueMemberS id ]} : AttributeMap) !! "id"
  = Some (AttributeValueMemberS id).
Proof. apply lookup_singleton_eq. Qed.

Lemma run_getOrderFromDynamoDB f id (w : World text) :
  run f (order.getOrderFromDynamoDB id) w =
  match GetItem_fails f with
  | Some err =>
      (Err err, w,
       [ev (dynamo_GetItem "order" {[ "id" := AttributeValueMemberS id ]});
        ev (log_Printf "Error fetching order from DynamoDB for orderID %s: %v"
              [id; Error err])])
  | None =>
      (Ok (order_of_item <$> dynamodb w !! id), w,
       [ev (dynamo_GetItem "order" {[ "id" := AttributeValueMemberS id ]})])
  end.
Proof.
  unfold order.getOrderFromDynamoDB.
  rewrite run_bind, run_trigger. unfold perform.
  destruct (GetItem_fails f) as [err|]; [reflexivity|].
  rewrite lookup_key_id. cbn [fst snd Item].
  destruct (dynamodb w !! id) as [item|]; reflexivity.
Qed.

Lemma order_of_item_of_order o : order_of_item (item_of_order o) = o.
Proof. destruct o as [i c p]. vm_compute. reflexivity. Qed.

Lemma run_saveOrderToDynamoDB f o (w : World text) :
  run f (order.saveOrderToDynamoDB o) w =
  match PutItem_fails f with
  | Some err =>
      (Some err, w,
       [ev (dynamo_PutItem "order" (item_of_order o));
        ev (log_Printf "Error saving order to DynamoDB for orderID %s: %v"
              [order.ID o; Error err])])
  | None =>
      (None, with_dynamodb (<[order.ID o := item_of_order o]> (dynamodb w)) w,
       [ev (dynamo_PutItem "order" (item_of_order o));
        ev (log_Printf "Successfully saved order to DynamoDB for orderID %s"
              [order.ID o])])
  end.
Proof.
  unfold order.saveOrderToDynamoDB.
  rewrite run_bind, run_trigger. unfold perform.
  fold (item_of_order o).
  destruct (PutItem_fails f) as [err|]; [reflexivity|].
  assert (item_of_order o !! "id" = Some (AttributeValueMemberS (order.ID o)))
    as -> by apply lookup_insert_eq.
  reflexivity.
Qed.

Lemma run_getOrder f c (w : World text) :
  run f (order.getOrder c) w =
  let id := DefaultQuery c "id" "" in
  match GetItem_fails f with
  | Some err =>
      (c_JSON StatusInternalServerError (gin_H "error" "failed to fetch order"), w,
       [ev (dynamo_GetItem "order" {[ "id" := AttributeValueMemberS id ]});
        ev (log_Printf "Error fetching order from DynamoDB for orderID %s: %v"
              [id; Error err]);
        ev (log_Printf "Failed to fetch order from DynamoDB for orderID %s: %v"
              [id; Error err])])
  | None =>
      (match dynamodb w !! id with
       | None => c_JSON StatusNotFound (gin_H "error" "order not found")
       | Some item => c_JSON StatusOK (order_of_item item)
       end, w,
       [ev (dynamo_GetItem "order" {[ "id" := AttributeValueMemberS id ]})])
  end.
Proof.
  unfold order.getOrder. rewrite run_bind, run_getOrderFromDynamoDB.
  destruct (GetItem_fails f) as [err|]; [reflexivity|].
  destruct (dynamodb w !! DefaultQuery c "id" "") as [item|]; reflexivity.
Qed.

Lemma run_createOrder f c (w : World text) :
  run f (order.createOrder c) w =
  match ShouldBindJSON c order.zero with
  | Err err => (c_JSON StatusBadRequest (gin_H "error" (Error err)), w, [])
  | Ok o =>
      match PutItem_fails f with
      | Some err =>
          (c_JSON StatusInternalServerError (gin_H "error" "failed to save order"), w,
           [ev (dynamo_PutItem "order" (item_of_order o));
            ev (log_Printf "Error saving order to DynamoDB for orderID %s: %v"
                  [order.ID o; Error err]);
            ev (log_Printf "Failed to save order to DynamoDB for orderID %s: %v"
                  [order.ID o; Error err])])
      | None =>
          (c_JSON StatusCreated (gin_H "message" "Order created successfully"),
           with_dynamodb (<[order.ID o := item_of_order o]> (dynamodb w)) w,
           [ev (dynamo_PutItem "order" (item_of_order o));
            ev (log_Printf "Successfully saved order to DynamoDB for orderID %s"
                  [order.ID o])])
      end
  end.
Proof.
  unfold order.createOrder.
  destruct (ShouldBindJSON c order.zero) as [o|err]; [|reflexivity].
  rewrite run_bind, run_saveOrderToDynamoDB.
  destruct (PutItem_fails f) as [err|]; reflexivity.
Qed.

(** The scan loop appends one decoded order per item. *)
Lemma fold_scan_item items l :
  fold_left order.scan_item items (make_slice l)
  = make_slice (l ++ map order_of_item items)%list.
Proof.
  revert l. induction items as [|item items IH]; intros l; simpl.
  - by rewrite app_nil_r.
  - change (order.scan_item (make_slice l) item)
      with (make_slice (l ++ [order_of_item item])%list).
    rewrite IH. by rewrite <- app_assoc.
Qed.

Lemma orders_of_items_nil : orders_of_items [] = nil_slice.
Proof. reflexivity. Qed.

Lemma orders_of_items_cons item items :
  orders_of_items (item :: items)
  = make_slice (map order_of_item (item :: items)).
Proof.
  unfold orders_of_items. simpl.
  change (order.scan_item nil_slice item) with (make_slice [order_of_item item]).
  by rewrite fold_scan_item.
Qed.

Lemma len_orders_of_items items : len (orders_of_items items) = length items.
Proof.
  destruct items as [|item items]; [reflexivity|].
  rewrite orders_of_items_cons. simpl. by rewrite length_map.
Qed.

Lemma run_getAllOrdersFromDynamoDB f (w : World text) :
  run f order.getAllOrdersFromDynamoDB w =
  match Scan_fails f with
  | Some err => (Err err, w, [ev (dynamo_Scan "order")])
  | None =>
      (Ok (orders_of_items (map snd (map_to_list (dynamodb w)))), w,
       [ev (dynamo_Scan "order")])
  end.
Proof.
  unfold order.getAllOrdersFromDynamoDB.
  rewrite run_bind, run_trigger. unfold perform.
  destruct (Scan_fails f) as [err|]; reflexivity.
Qed.

Lemma run_saveDataToS3 f data (w : World text) :
  run f (order.saveDataToS3 arn data) w =
  match PutObject_fails f with
  | Some err =>
      (Some err, w,
       [ev (s3_PutObject arn "orders_data.json" data);
        ev (log_Printf "Error saving data to S3: %v" [Error err])])
  | None =>
      (None, with_s3 (<["orders_data.json" := data]> (s3 w)) w,
       [ev (s3_PutObject arn "orders_data.json" data);
        ev (log_Printf "Successfully saved data to S3" [])])
  end.
Proof.
  unfold order.saveDataToS3.
  rewrite run_bind, run_trigger. unfold perform.
  destruct (PutObject_fails f) as [err|]; reflexivity.
Qed.

Lemma slice_elems_orders_of_items items :
  slice_elems (orders_of_items items) = map order_of_item items.
Proof.
  destruct items as [|item items]; [reflexivity|].
  by rewrite orders_of_items_cons.
Qed.

Lemma order_of_item_ID item :
  read_lossily item "id" (order.ID (order_of_item item)).
Proof.
  unfold read_lossily, order_of_item, order.assign_S.
  destruct (item !! "productid") as [[]|], (item !! "customerid") as [[]|],
    (item !! "id") as [[]|]; reflexivity.
Qed.

Lemma order_of_item_CustomerID item :
  read_lossily item "customerid" (order.CustomerID (order_of_item item)).
Proof.
  unfold read_lossily, order_of_item, order.assign_S.
  destruct (item !! "productid") as [[]|], (item !! "id") as [[]|],
    (item !! "customerid") as [[]|]; reflexivity.
Qed.

Lemma order_of_item_ProductID item :
  read_lossily item "productid" (order.ProductID (order_of_item item)).
Proof.
  unfold read_lossily, order_of_item, order.assign_S.
  destruct (item !! "customerid") as [[]|], (item !! "id") as [[]|],
    (item !! "productid") as [[]|]; reflexivity.
Qed.

(** A bulk export whose scan and object write go through. *)
Lemma run_saveOrdersToS3_ok f c (w : World text) :
  Scan_fails f = None ->
  PutObject_fails f = None ->
  let orders := orders_of_items (map snd (map_to_list (dynamodb w))) in
  let data := json_render (to_json orders) in
  run f (order.saveOrdersToS3 arn c) w =
  (c_JSON StatusOK (gin_H "message" "Orders saved to S3 successfully"),
   with_s3 (<["orders_data.json" := data]> (s3 w)) w,
   [ev (dynamo_Scan "order");
    ev (s3_PutObject arn "orders_data.json" data);
    ev (log_Printf "Successfully saved data to S3" [])]).
Proof.
  intros Hscan Hput. unfold order.saveOrdersToS3.
  rewrite run_bind, run_getAllOrdersFromDynamoDB, Hscan.
  unfold json_Marshal.
  rewrite run_bind, run_saveDataToS3, Hput. reflexivity.
Qed.

End OrderFacts.

(** ** The cache-aside services *)

Section CacheAsideFacts.

Context {text : Type} `{!JSONText text}.
Context {T : Type} `{!cache_aside.Entity T}.

Import cache_aside.

(** Reads leave every store as it is; a failed write too. *)
Lemma perform_redis_Get_world f key (w : World text) :
  snd (perform f (redis_Get key) w) = w.
Proof.
  unfold perform. destruct (redis_Get_fails f); [reflexivity|].
  destruct (redis w !! key); reflexivity.
Qed.

Lemma perform_db_Get_world f q arg (w : World text) :
  snd (perform f (db_Get q arg) w) = w.
Proof.
  unfold perform. destruct (db_Get_fails f); [reflexivity|].
  destruct (mysql w !! arg); reflexivity.
Qed.

Lemma perform_db_Exec_error f q args (w : World text) err :
  fst (perform f (db_Exec q args) w) = Some err ->
  snd (perform f (db_Exec q args) w) = w.
Proof.
  unfold perform, insert_row. destruct (db_Exec_fails f); [reflexivity|].
  destruct args as [|id args]; [reflexivity|].
  destruct (mysql w !! id); [reflexivity|]. discriminate.
Qed.

Lemma run_getFromCache f id (w : World text) :
  run f (getFromCache id) w =
  match fst (perform f (redis_Get id) w) with
  | Ok val =>
      match json_Unmarshal val zero with
      | Ok p => (Ok (Some p), w, [ev (redis_Get id)])
      | Err err =>
          (Err err, w,
           [ev (redis_Get id);
            ev (log_Printf ("Error unmarshalling data for " ++ noun ++ "ID %s: %v")
                  [id; Error err])])
      end
  | Err redis_Nil =>
      (Ok None, w,
       [ev (redis_Get id);
        ev (log_Printf ("No cache found for " ++ noun ++ "ID: %s") [id])])
  | Err err =>
      (Err err, w,
       [ev (redis_Get id);
        ev (log_Printf ("Error fetching from Redis for " ++ noun ++ "ID %s: %v")
              [id; Error err])])
  end.
Proof.
  unfold getFromCache. rewrite run_bind, run_trigger, perform_redis_Get_world.
  destruct (fst (perform f (redis_Get id) w)) as [val|[| |msg]]; try reflexivity.
  destruct (json_Unmarshal val zero) as [p|err]; reflexivity.
Qed.

Lemma run_saveToCache f (p : T) (w : World text) :
  run f (saveToCache p) w =
  let data := json_render (to_json p) in
  match redis_Set_fails f with
  | Some err =>
      (tt, w,
       [ev (redis_Set (entity_ID p) data 0);
        ev (log_Printf ("Failed to save to cache for " ++ noun ++ "ID %s: %v")
              [entity_ID p; Error err])])
  | None =>
      (tt, with_redis (<[entity_ID p := data]> (redis w)) w,
       [ev (redis_Set (entity_ID p) data 0);
        ev (log_Printf ("Successfully saved to cache for " ++ noun ++ "ID %s")
              [entity_ID p])])
  end.
Proof.
  unfold saveToCache, json_Marshal.
  rewrite run_bind, run_trigger. unfold perform.
  destruct (redis_Set_fails f) as [err|]; reflexivity.
Qed.

Lemma run_getFromDB f id (w : World text) :
  run f (getFromDB id) w =
  let failed err :=
    (Err err, w,
     [ev (db_Get selectQuery id);
      ev (log_Printf ("Error fetching from DB for " ++ noun ++ "ID %s: %v")
            [id; Error err])]) in
  match fst (perform f (db_Get selectQuery id) w) with
  | Err err => failed err
  | Ok row =>
      match scan row zero with
      | Err err => failed err
      | Ok p => (Ok p, w, [ev (db_Get selectQuery id)])
      end
  end.
Proof.
  unfold getFromDB, db_Get_into.
  rewrite !run_bind, run_trigger, perform_db_Get_world.
  destruct (fst (perform f (db_Get selectQuery id) w)) as [row|err]; [|reflexivity].
  simpl. destruct (scan row zero) as [p|err]; reflexivity.
Qed.

Lemma run_saveToDB f (p : T) (w : World text) :
  run f (saveToDB p) w =
  let call := db_Exec insertQuery (exec_args p) in
  match fst (perform f call w) with
  | Some err =>
      (Some err, w,
       [ev call;
        ev (log_Printf ("Error saving to DB for " ++ noun ++ "ID %s: %v")
              [entity_ID p; Error err])])
  | None =>
      (None, snd (perform f call w),
       [ev call;
        ev (log_Printf ("Successfully saved to DB for " ++ noun ++ "ID %s")
              [entity_ID p])])
  end.
Proof.
  unfold saveToDB. rewrite run_bind, run_trigger. cbv zeta.
  destruct (fst (perform f (db_Exec insertQuery (exec_args p)) w)) as [err|] eqn:E.
  - rewrite (perform_db_Exec_error _ _ _ _ _ E). reflexivity.
  - reflexivity.
Qed.

Lemma run_getRecord f c (w : World text) :
  run f (getRecord c) w =
  let id := DefaultQuery c "id" "" in
  match run f (getFromCache id) w with
  | (Err err, _, tr) =>
      (c_JSON StatusInternalServerError (gin_H "error" "failed to fetch from cache"),
       w,
       (tr ++ [ev (log_Printf
                 ("Failed to fetch from cache for " ++ noun ++ "ID %s: %v")
                 [id; Error err])])%list)
  | (Ok (Some p), _, tr) => (c_JSON StatusOK p, w, tr)
  | (Ok None, _, tr) =>
      match run f (getFromDB id) w with
      | (Err err, _, tr') =>
          (c_JSON StatusInternalServerError (gin_H "error" "failed to fetch from DB"),
           w,
           (tr ++ tr' ++
            [ev (log_Printf
                   ("Failed to fetch from DB for " ++ noun ++ "ID %s: %v")
                   [id; Error err])])%list)
      | (Ok p, _, tr') =>
          (c_JSON StatusOK p, world_of (run f (saveToCache p) w),
           (tr ++ tr' ++ calls_of (run f (saveToCache p) w))%list)
      end
  end.
Proof.
  cbv zeta. unfold getRecord. rewrite run_bind.
  assert (Hw : world_of (run f (getFromCache (DefaultQuery c "id" "")) w) = w).
  { rewrite run_getFromCache.
    destruct (fst (perform f (redis_Get _) w)) as [val|[| |msg]]; try reflexivity.
    destruct (json_Unmarshal val zero); reflexivity. }
  destruct (run f (getFromCache _) w) as [[r w1] tr]. unfold world_of in Hw; simpl in Hw. subst w1.
  destruct r as [[p|]|err]; [simpl; by rewrite app_nil_r| |reflexivity].
  rewrite run_bind.
  assert (Hw : world_of (run f (getFromDB (DefaultQuery c "id" "")) w) = w).
  { rewrite run_getFromDB. cbv zeta.
    destruct (fst (perform f (db_Get _ _) w)) as [row|err]; [|reflexivity].
    destruct (scan row zero); reflexivity. }
  destruct (run f (getFromDB _) w) as [[r w1] tr']. unfold world_of in Hw; simpl in Hw. subst w1.
  destruct r as [p|err].
  - rewrite run_bind.
    destruct (run f (saveToCache p) w) as [[[] w2] tr2].
    unfold world_of, calls_of; simpl. by rewrite app_nil_r.
  - reflexivity.
Qed.

Lemma run_createRecord f c (w : World text) :
  run f (createRecord c) w =
  match ShouldBindJSON c zero with
  | Err err => (c_JSON StatusBadRequest (gin_H "error" (Error err)), w, [])
  | Ok p =>
      match run f (saveToDB p) w with
      | (Some err, w1, tr) =>
          (c_JSON StatusInternalServerError (gin_H "error" "failed to save to DB"),
           w1,
           (tr ++ [ev (log_Printf
                     ("Failed to save to DB for " ++ noun ++ "ID %s: %v")
                     [entity_ID p; Error err])])%list)
      | (None, w1, tr) =>
          (c_JSON StatusCreated (gin_H "message" (Noun ++ " created successfully")),
           world_of (run f (saveToCache p) w1),
           (tr ++ calls_of (run f (saveToCache p) w1))%list)
      end
  end.
Proof.
  unfold createRecord.
  destruct (ShouldBindJSON c zero) as [p|err]; [|reflexivity].
  rewrite run_bind.
  destruct (run f (saveToDB p) w) as [[[err|] w1] tr].
  - reflexivity.
  - rewrite run_bind.
    destruct (run f (saveToCache p) w1) as [[[] w2] tr2].
    unfold world_of, calls_of; simpl. by rewrite app_nil_r.
Qed.

End CacheAsideFacts.

(** ** Cache and table of a cache-aside service *)

Section CacheAsideInvariants.

Context {text : Type} `{!JSONText text}.
Context {T : Type} `{!cache_aside.Entity T} `{!EntityLaws T}.

Import cache_aside.

Lemma exec_args_inj (p q : T) : exec_args p = exec_args q -> p = q.
Proof.
  intros E. pose proof (scan_exec_args p zero) as Hp.
  rewrite E, scan_exec_args in Hp. congruence.
Qed.

Lemma json_Unmarshal_json_Marshal (p dest : T) :
  json_Unmarshal (json_render (to_json p)) dest = Ok p.
Proof.
  unfold json_Unmarshal. rewrite json_parse_render. apply from_json_to_json.
Qed.

(** The world a read leaves: unchanged, or the cache filled with the
    struct scanned from the row of the requested id. *)
Lemma world_getRecord f c (w : World text) :
  let id := DefaultQuery c "id" "" in
  let w' := world_of (run f (getRecord c) w) in
  w' = w \/
  exists row (p : T),
    mysql w !! id = Some row /\ scan row zero = Ok p /\
    w' = with_redis (<[entity_ID p := json_render (to_json p)]> (redis w)) w.
Proof.
  cbv zeta. rewrite run_getRecord. cbv zeta. rewrite run_getFromCache.
  destruct (fst (perform f (redis_Get _) w)) as [val|[| |msg]];
    [destruct (json_Unmarshal val zero); left; reflexivity | | left; reflexivity ..].
  rewrite run_getFromDB. cbv zeta.
  destruct (fst (perform f (db_Get _ _) w)) as [row|err] eqn:Hget;
    [|left; reflexivity].
  destruct (scan row zero) as [p|err] eqn:Hscan; [|left; reflexivity].
  rewrite run_saveToCache. cbv zeta.
  destruct (redis_Set_fails f); [left; reflexivity|].
  right. exists row, p. split; [|split; [done|reflexivity]].
  unfold perform in Hget. destruct (db_Get_fails f); [discriminate|].
  destruct (mysql w !! _); simpl in Hget; congruence.
Qed.

(** The world a create leaves: unchanged, or a row inserted under a free
    id and then possibly cached. *)
Lemma world_createRecord f c (w : World text) :
  let w' := world_of (run f (createRecord c) w) in
  w' = w \/
  exists p : T,
    ShouldBindJSON c zero = Ok p /\
    mysql w !! entity_ID p = None /\
    let w1 := with_mysql (<[entity_ID p := exec_args p]> (mysql w)) w in
    w' = w1 \/
    w' = with_redis (<[entity_ID p := json_render (to_json p)]> (redis w1)) w1.
Proof.
  cbv zeta. rewrite run_createRecord.
  destruct (ShouldBindJSON c zero) as [p|err]; [|left; reflexivity].
  rewrite run_saveToDB. cbv zeta.
  destruct (fst (perform f (db_Exec _ _) w)) as [err|] eqn:Hexec;
    [left; reflexivity|].
  right. exists p. split; [reflexivity|].
  lazy beta iota. rewrite run_saveToCache. cbv zeta.
  destruct (exec_args_ID p) as [rest Hargs].
  unfold perform, insert_row in *. rewrite Hargs in *.
  destruct (db_Exec_fails f); [discriminate|].
  destruct (mysql w !! entity_ID p) eqn:Hfree; [discriminate|].
  split; [reflexivity|].
  destruct (redis_Set_fails f); [left|right]; reflexivity.
Qed.

Import cache_aside_server.

Lemma table_ok_empty : table_ok (T := T) (empty_world (text := text)).
Proof. intros k row Hk. simpl in Hk. by rewrite lookup_empty in Hk. Qed.

Lemma cache_ok_empty : cache_ok (T := T) (empty_world (text := text)).
Proof. intros k data Hk. simpl in Hk. by rewrite lookup_empty in Hk. Qed.

Lemma invariant_getRecord f c (w : World text) :
  table_ok (T := T) w -> cache_ok (T := T) w ->
  let w' := world_of (run f (getRecord (T := T) c) w) in
  table_ok (T := T) w' /\ cache_ok (T := T) w'.
Proof.
  intros Ht Hc. cbv zeta.
  destruct (world_getRecord f c w) as [-> | (row & p & Hrow & Hscan & ->)];
    [done|].
  split; [exact Ht|].
  destruct (Ht _ _ Hrow) as (q & -> & Hid).
  rewrite scan_exec_args in Hscan. injection Hscan as ->.
  intros k data. simpl. rewrite lookup_insert.
  case_decide as Hk.
  - intros [= <-]. exists p. subst k. by rewrite Hid.
  - apply Hc.
Qed.

Lemma invariant_createRecord f c (w : World text) :
  table_ok (T := T) w -> cache_ok (T := T) w ->
  let w' := world_of (run f (createRecord (T := T) c) w) in
  table_ok (T := T) w' /\ cache_ok (T := T) w'.
Proof.
  intros Ht Hc. cbv zeta.
  destruct (world_createRecord f c w) as [-> | (p & _ & Hfree & Hw)]; [done|].
  cbv zeta in Hw.
  assert (Ht1 : forall k row,
             <[entity_ID p := exec_args p]> (mysql w) !! k = Some row ->
             exists q : T, row = exec_args q /\ entity_ID q = k).
  { intros k row. rewrite lookup_insert. case_decide as Hk.
    - intros [= <-]. by exists p.
    - apply Ht. }
  assert (Hc1 : forall k data, redis w !! k = Some data ->
             exists q : T, data = json_render (to_json q) /\ entity_ID q = k /\
               <[entity_ID p := exec_args p]> (mysql w) !! k = Some (exec_args q)).
  { intros k data Hk. destruct (Hc _ _ Hk) as (q & -> & Hid & Hrow).
    exists q. split; [done|]. split; [done|].
    rewrite lookup_insert_ne; [done|]. intros E. congruence. }
  destruct Hw as [-> | ->]; (split; [exact Ht1|]); [exact Hc1|].
  intros k data. simpl. rewrite lookup_insert. case_decide as Hk.
  - intros [= <-]. exists p. subst k. by rewrite lookup_insert_eq.
  - apply Hc1.
Qed.

Lemma invariant_serve (w : World text) fr :
  table_ok (T := T) w -> cache_ok (T := T) w ->
  table_ok (T := T) (serve w fr) /\ cache_ok (T := T) (serve w fr).
Proof.
  destruct fr as [f [c|c]]; unfold serve; cbn [fst snd handler].
  - apply invariant_getRecord.
  - apply invariant_createRecord.
Qed.

Lemma invariant_reachable (w : World text) :
  reachable (T := T) w -> table_ok (T := T) w /\ cache_ok (T := T) w.
Proof.
  induction 1 as [|w fr _ [Ht Hc]].
  - split; [apply table_ok_empty | apply cache_ok_empty].
  - by apply invariant_serve.
Qed.

Lemma cache_ok_coherent (w : World text) :
  cache_ok (T := T) w -> cache_coherent (T := T) w.
Proof.
  intros Hc k data Hk. destruct (Hc _ _ Hk) as (p & -> & Hid & Hrow).
  exists p, (exec_args p). split; [apply json_Unmarshal_json_Marshal|].
  split; [done|]. split; [apply scan_exec_args | done].
Qed.

(** A row, once inserted, is there for good: nothing updates or deletes. *)
Lemma row_persists_serve (w : World text) fr k row :
  mysql w !! k = Some row -> mysql (serve (T := T) w fr) !! k = Some row.
Proof.
  intros Hrow. destruct fr as [f [c|c]]; unfold serve; cbn [fst snd handler].
  - destruct (world_getRecord f c w) as [-> | (r & p & _ & _ & ->)]; done.
  - destruct (world_createRecord f c w) as [-> | (p & _ & Hfree & Hw)]; [done|].
    cbv zeta in Hw.
    assert (entity_ID p <> k) by congruence.
    destruct Hw as [-> | ->]; simpl; by rewrite lookup_insert_ne.
Qed.

Lemma row_persists_serve_all l (w : World text) k row :
  mysql w !! k = Some row -> mysql (serve_all (T := T) w l) !! k = Some row.
Proof.
  revert w. induction l as [|fr l IH]; intros w Hrow; [done|].
  simpl. apply IH. by apply row_persists_serve.
Qed.

Lemma reachable_serve_all l (w : World text) :
  reachable (T := T) w -> reachable (T := T) (serve_all w l).
Proof.
  revert w. induction l as [|fr l IH]; intros w Hw; [done|].
  simpl. apply IH. by constructor.
Qed.

End CacheAsideInvariants.

(** ** The two instances satisfy the laws *)

#[global] Instance Product_EntityLaws : EntityLaws product.Product.
Proof.
  split.
  - intros p. by eexists.
  - intros [i n c] dest. reflexivity.
  - intros [i n c] dest. reflexivity.
Qed.

#[global] Instance Customer_EntityLaws : EntityLaws customer.Customer.
Proof.
  split.
  - intros p. by eexists.
  - intros [i n g] dest. reflexivity.
  - intros [i n g] dest. reflexivity.
Qed.

(** ** Orders between a create and a later read *)

Section OrderServerFacts.

Context {text : Type} `{!JSONText text}.
Variable arn : string.

Lemma dynamodb_saveOrdersToS3 f c (w : World text) :
  dynamodb (world_of (run f (order.saveOrdersToS3 arn c) w)) = dynamodb w.
Proof.
  unfold order.saveOrdersToS3.
  rewrite run_bind, run_getAllOrdersFromDynamoDB.
  destruct (Scan_fails f); [reflexivity|].
  unfold json_Marshal. rewrite run_bind, run_saveDataToS3.
  destruct (PutObject_fails f); reflexivity.
Qed.

(** An item stays as it is under every request that does not ask to
    create an order with its id. *)
Lemma item_persists_serve (w : World text) fr id item :
  ~ order_server.creates id fr ->
  dynamodb w !! id = Some item ->
  dynamodb (order_server.serve arn w fr) !! id = Some item.
Proof.
  intros Hfr Hitem. destruct fr as [f [c|c|c]];
    unfold order_server.serve, order_server.creates in *;
    cbn [fst snd order_server.handler] in *.
  - rewrite run_getOrder. cbv zeta. by destruct (GetItem_fails f).
  - rewrite run_createOrder.
    destruct (ShouldBindJSON c order.zero) as [o|err]; [|done].
    destruct (PutItem_fails f); [done|].
    unfold world_of; simpl. by rewrite lookup_insert_ne.
  - by rewrite dynamodb_saveOrdersToS3.
Qed.

Lemma item_persists_serve_all l (w : World text) id item :
  Forall (fun fr => ~ order_server.creates id fr) l ->
  dynamodb w !! id = Some item ->
  dynamodb (order_server.serve_all arn w l) !! id = Some item.
Proof.
  revert w. induction l as [|fr l IH]; intros w Hl Hitem; [done|].
  inversion Hl; subst. simpl. apply IH; [done|].
  by apply item_persists_serve.
Qed.

End OrderServerFacts.

(** ** The services at work *)

(** Two orders are created, the second from a body with an upper-case
    member name, no product id and a member the struct does not have; the
    export then writes an array of the two. *)
Example export_after_two_creates :
  s3 (order_server.serve_all sample.arn empty_world
        [(no_faults, order_server.POST_order (sample.post sample.order_body));
         (no_faults,
          order_server.POST_order
            (sample.post (Document (JObject [("ID", JString "o2");
                                             ("customerid", JString "c2");
                                             ("note", JBool true)]))));
         (no_faults, order_server.POST_s3_order (sample.post (Garbage "")))])
    !! "orders_data.json"
  = Some (Document
            (JArray
               [JObject [("id", JString "o1"); ("customerid", JString "c1");
                         ("productid", JString "p1")];
                JObject [("id", JString "o2"); ("customerid", JString "c2");
                         ("productid", JString "")]])).
Proof. vm_compute. reflexivity. Qed.

(** A cache entry that is not JSON fails the read, although the row is in
    the table: the table is not asked. *)
Example undecodable_cache_entry :
  let w : World payload :=
    mkWorld {[ "p1" := Garbage "?" ]} {[ "p1" := ["p1"; "teapot"; "kitchen"] ]} ∅ ∅ in
  run no_faults (product.getProduct (sample.get_id "p1")) w
  = (c_JSON StatusInternalServerError (gin_H "error" "failed to fetch from cache"),
     w,
     [ev (redis_Get "p1");
      ev (log_Printf "Error unmarshalling data for productID %s: %v"
            ["p1"; "invalid character looking for beginning of value"]);
      ev (log_Printf "Failed to fetch from cache for productID %s: %v"
            ["p1"; "invalid character looking for beginning of value"])]).
Proof. vm_compute. reflexivity. Qed.

(** A request without the [id] parameter reads the id [""]. *)
Example read_without_id :
  calls_of (run no_faults (customer.getCustomer (sample.post (Garbage "")))
              sample.customer_stored)
  = [ev (redis_Get "");
     ev (log_Printf "No cache found for customerID: %s" [""]);
     ev (db_Get "SELECT id, name, gender FROM customers WHERE id = ?" "");
     ev (log_Printf "Error fetching from DB for customerID %s: %v"
           [""; "sql: no rows in result set"]);
     ev (log_Printf "Failed to fetch from DB for customerID %s: %v"
           [""; "sql: no rows in result set"])].
Proof. vm_compute. reflexivity. Qed.

(** * The claims *)

(** C1: a create request with a well-formed body whose write to the
    primary store succeeds (the request is answered 201) is followed,
    after any requests that do not write the same id, by a read of that id
    answered 200 with the record created, field for field.  For orders
    the record comes back from DynamoDB; for products and customers (the
    instances of the cache-aside program at [product.Product] and
    [customer.Customer]) from the cache or from the row, in a service
    started on empty stores, where no request can overwrite a row.  The
    stores answer the read (no failure of the lookups). *)
Theorem read_after_create_returns_created_record :
  forall (text : Type) (J : JSONText text),
  (forall arn (w : World text) f c o between f' c',
      ShouldBindJSON c order.zero = Ok o ->
      status (response_of (run f (order.createOrder c) w)) = StatusCreated ->
      Forall (fun fr => ~ order_server.creates (order.ID o) fr) between ->
      DefaultQuery c' "id" "" = order.ID o ->
      GetItem_fails f' = None ->
      let w1 := world_of (run f (order.createOrder c) w) in
      let w2 := order_server.serve_all arn w1 between in
      response_of (run f' (order.getOrder c') w2) = c_JSON StatusOK o)
  /\
  (forall T (E : cache_aside.Entity T) (L : EntityLaws T)
      (w : World text) f c (p : T) between f' c',
      cache_aside_server.reachable (T := T) w ->
      ShouldBindJSON c cache_aside.zero = Ok p ->
      status (response_of (run f (cache_aside.createRecord c) w)) = StatusCreated ->
      DefaultQuery c' "id" "" = cache_aside.entity_ID p ->
      redis_Get_fails f' = None ->
      db_Get_fails f' = None ->
      let w1 := world_of (run f (cache_aside.createRecord (T := T) c) w) in
      let w2 := cache_aside_server.serve_all (T := T) w1 between in
      response_of (run f' (cache_aside.getRecord c') w2) = c_JSON StatusOK p).
Proof.
  intros text J. split.
  - intros arn w f c o between f' c' Hbind Hcreated Hbetween Hid Hget w1 w2.
    assert (Hitem : dynamodb w1 !! order.ID o = Some (item_of_order o)).
    { subst w1. rewrite run_createOrder, Hbind in Hcreated |- *.
      destruct (PutItem_fails f); [discriminate Hcreated|].
      unfold world_of; simpl. apply lookup_insert_eq. }
    apply (item_persists_serve_all arn between) in Hitem; [|done].
    fold w2 in Hitem. rewrite run_getOrder, Hget. cbv zeta.
    rewrite Hid, Hitem. unfold response_of; simpl.
    by rewrite order_of_item_of_order.
  - intros T E L w f c p between f' c' Hreach Hbind Hcreated Hid Hget Hdb w1 w2.
    assert (Hreach2 : cache_aside_server.reachable (T := T) w2).
    { apply reachable_serve_all.
      apply (cache_aside_server.reachable_serve w (f, cache_aside_server.POST c)).
      exact Hreach. }
    destruct (invariant_reachable _ Hreach2) as [_ Hcache].
    assert (Hrow : mysql w2 !! cache_aside.entity_ID p
                   = Some (cache_aside.exec_args p)).
    { apply row_persists_serve_all. subst w1.
      destruct (world_createRecord f c w) as [Hw | (q & Hq & Hfree & Hw)].
      - exfalso. revert Hcreated. rewrite run_createRecord, Hbind.
        rewrite run_saveToDB. cbv zeta.
        destruct (fst (perform f (db_Exec _ _) w)) as [err|] eqn:Hexec;
          [discriminate|].
        intros _. revert Hw. rewrite run_createRecord, Hbind, run_saveToDB.
        cbv zeta. rewrite Hexec. lazy beta iota. rewrite run_saveToCache.
        cbv zeta. destruct (exec_args_ID p) as [rest Hargs].
        unfold perform, insert_row in *. rewrite Hargs in *.
        destruct (db_Exec_fails f); [discriminate|].
        destruct (mysql w !! cache_aside.entity_ID p) eqn:Hfree; [discriminate|].
        destruct (redis_Set_fails f); unfold world_of; simpl; intros Hw;
          apply (f_equal mysql) in Hw; simpl in Hw;
          apply (f_equal (fun m => m !! cache_aside.entity_ID p)) in Hw;
          rewrite lookup_insert_eq in Hw; congruence.
      - rewrite Hbind in Hq. injection Hq as <-. cbv zeta in Hw.
        destruct Hw as [-> | ->]; simpl; apply lookup_insert_eq. }
    rewrite run_getRecord. cbv zeta. rewrite run_getFromCache, Hid.
    unfold perform at 1. rewrite Hget.
    destruct (redis w2 !! cache_aside.entity_ID p) as [data|] eqn:Hdata.
    + destruct (Hcache _ _ Hdata) as (q & -> & _ & Hq).
      rewrite Hrow in Hq. injection Hq as Hq. apply exec_args_inj in Hq.
      subst q. cbn [fst]. rewrite json_Unmarshal_json_Marshal. reflexivity.
    + cbn [fst]. rewrite run_getFromDB. cbv zeta.
      unfold perform at 1. rewrite Hdb, Hrow. cbn [fst].
      rewrite scan_exec_args. reflexivity.
Qed.

Lemma read_after_create_witness :
  response_of (run no_faults (order.getOrder (sample.get_id "o1"))
                 (world_of (run no_faults (order.createOrder (sample.post sample.order_body))
                              empty_world)))
  = c_JSON StatusOK sample.the_order
  /\
  response_of (run no_faults (product.getProduct (sample.get_id "p1"))
                 (world_of (run (with_redis_Set_fails (Some (errors_New "timeout")) no_faults)
                              (product.createProduct (sample.post sample.product_body))
                              empty_world)))
  = c_JSON StatusOK sample.the_product.
Proof.
  split.
  - apply (proj1 (read_after_create_returns_created_record payload _)
             sample.arn empty_world no_faults (sample.post sample.order_body)
             sample.the_order [] no_faults (sample.get_id "o1")).
    + reflexivity.
    + vm_compute. reflexivity.
    + constructor.
    + reflexivity.
    + reflexivity.
  - apply (proj2 (read_after_create_returns_created_record payload _)
             product.Product _ _ empty_world
             (with_redis_Set_fails (Some (errors_New "timeout")) no_faults)
             (sample.post sample.product_body)
             sample.the_product [] no_faults (sample.get_id "p1")).
    + constructor.
    + reflexivity.
    + vm_compute. reflexivity.
    + reflexivity.
    + reflexivity.
    + reflexivity.
Defined.

(** C2: a read of the product or customer service is decided by the cache
    lookup [getFromCache].  When the lookup yields a record (Redis
    returned a value and it decoded), the answer is 200 with that record,
    the only call made is the Redis read, and nothing depends on the
    primary store, which may well be failing.  When the lookup reports a
    definitive miss ([redis.Nil]), the next call is the query of the
    primary store and the answer is the one of that path.  When the lookup
    fails with any other error, the answer is 500 and no call reaches the
    primary store.  The last part states what the lookup yields in terms
    of the answer of Redis. *)
Theorem cache_lookup_decides_read :
  forall (text : Type) (J : JSONText text) T (E : cache_aside.Entity T)
         (w : World text) f c,
  let id := DefaultQuery c "id" "" in
  let outcome := run f (cache_aside.getRecord (T := T) c) w in
  match response_of (run f (cache_aside.getFromCache (T := T) id) w) with
  | Ok (Some p) =>
      response_of outcome = c_JSON StatusOK p /\
      world_of outcome = w /\
      calls_of outcome = [ev (redis_Get id)] /\
      Forall (fun e => touches_primary_store e = false) (calls_of outcome)
  | Ok None =>
      (exists rest,
          calls_of outcome =
          ev (redis_Get id)
          :: ev (log_Printf ("No cache found for " ++ cache_aside.noun ++ "ID: %s") [id])
          :: ev (db_Get cache_aside.selectQuery id) :: rest) /\
      response_of outcome =
      match response_of (run f (cache_aside.getFromDB (T := T) id) w) with
      | Ok p => c_JSON StatusOK p
      | Err _ => c_JSON StatusInternalServerError (gin_H "error" "failed to fetch from DB")
      end
  | Err err =>
      response_of outcome =
        c_JSON StatusInternalServerError (gin_H "error" "failed to fetch from cache") /\
      world_of outcome = w /\
      Forall (fun e => touches_primary_store e = false) (calls_of outcome)
  end
  /\
  response_of (run f (cache_aside.getFromCache (T := T) id) w) =
  match fst (perform f (redis_Get id) w) with
  | Ok val =>
      match json_Unmarshal val cache_aside.zero with
      | Ok p => Ok (Some p)
      | Err err => Err err
      end
  | Err redis_Nil => Ok None
  | Err err => Err err
  end.
Proof.
  intros text J T E w f c id outcome. subst outcome.
  rewrite run_getRecord. cbv zeta. fold id.
  rewrite run_getFromCache.
  destruct (fst (perform f (redis_Get id) w)) as [val|[| |msg]].
  - destruct (json_Unmarshal val cache_aside.zero) as [p|err];
      (split; [|reflexivity]); unfold response_of, world_of, calls_of; simpl;
      repeat split; repeat constructor.
  - split; [|reflexivity]. rewrite run_getFromDB. cbv zeta.
    destruct (fst (perform f (db_Get _ _) w)) as [row|err].
    + destruct (cache_aside.scan row cache_aside.zero) as [p|err];
        unfold response_of, calls_of; simpl;
        (split; [eexists; reflexivity | reflexivity]).
    + unfold response_of, calls_of; simpl.
      split; [eexists; reflexivity | reflexivity].
  - split; [|reflexivity]. unfold response_of, world_of, calls_of; simpl.
    repeat split; repeat constructor.
  - split; [|reflexivity]. unfold response_of, world_of, calls_of; simpl.
    repeat split; repeat constructor.
Qed.

Lemma cache_lookup_decides_read_witness :
  response_of (run sample.db_down (product.getProduct (sample.get_id "p1"))
                 sample.product_cached)
  = c_JSON StatusOK sample.the_product.
Proof.
  pose proof (cache_lookup_decides_read payload _ product.Product _
                sample.product_cached sample.db_down (sample.get_id "p1")) as H.
  destruct H as [H _]. vm_compute in H. destruct H as [H _].
  vm_compute. exact H.
Defined.

(** C3: a read whose id is in neither the cache nor the primary store is
    answered 404 by the order service (when DynamoDB answers the lookup),
    and 500 by the product and customer services, whatever else happens.
    The order service tells the absent record from a failed lookup (404
    against 500); the product and customer services answer a missing row
    and a failed query alike, and none of their handlers ever answers
    404. *)
Theorem absent_record_is_404_for_orders_only :
  forall (text : Type) (J : JSONText text),
  (forall (w : World text) f c,
      GetItem_fails f = None ->
      dynamodb w !! DefaultQuery c "id" "" = None ->
      response_of (run f (order.getOrder c) w)
      = c_JSON StatusNotFound (gin_H "error" "order not found"))
  /\
  (forall (w : World text) f c err,
      GetItem_fails f = Some err ->
      response_of (run f (order.getOrder c) w)
      = c_JSON StatusInternalServerError (gin_H "error" "failed to fetch order"))
  /\
  (forall T (E : cache_aside.Entity T) (w : World text) f c,
      redis w !! DefaultQuery c "id" "" = None ->
      mysql w !! DefaultQuery c "id" "" = None ->
      status (response_of (run f (cache_aside.getRecord (T := T) c) w))
      = StatusInternalServerError)
  /\
  (forall T (E : cache_aside.Entity T) (w : World text) f c err,
      fst (perform f (redis_Get (DefaultQuery c "id" "")) w) = Err redis_Nil ->
      fst (perform f (db_Get cache_aside.selectQuery (DefaultQuery c "id" "")) w)
      = Err err ->
      response_of (run f (cache_aside.getRecord (T := T) c) w)
      = c_JSON StatusInternalServerError (gin_H "error" "failed to fetch from DB"))
  /\
  (forall T (E : cache_aside.Entity T) (w : World text) f c,
      status (response_of (run f (cache_aside.getRecord (T := T) c) w))
      <> StatusNotFound /\
      status (response_of (run f (cache_aside.createRecord (T := T) c) w))
      <> StatusNotFound).
Proof.
  intros text J. repeat split.
  - intros w f c Hget Habsent. rewrite run_getOrder, Hget. cbv zeta.
    by rewrite Habsent.
  - intros w f c err Hget. by rewrite run_getOrder, Hget.
  - intros T E w f c Hcache Hrow.
    rewrite run_getRecord. cbv zeta. rewrite run_getFromCache.
    unfold perform at 1. rewrite Hcache.
    destruct (redis_Get_fails f) as [[| |msg]|]; try reflexivity;
      rewrite run_getFromDB; cbv zeta; unfold perform at 1; rewrite Hrow;
      destruct (db_Get_fails f); reflexivity.
  - intros T E w f c err Hmiss Hdb.
    rewrite run_getRecord. cbv zeta. rewrite run_getFromCache, Hmiss.
    rewrite run_getFromDB. cbv zeta. by rewrite Hdb.
  - rewrite run_getRecord. cbv zeta. rewrite run_getFromCache.
    destruct (fst (perform f (redis_Get _) w)) as [val|[| |msg]];
      [destruct (json_Unmarshal val cache_aside.zero); discriminate
      | | discriminate ..].
    rewrite run_getFromDB. cbv zeta.
    destruct (fst (perform f (db_Get _ _) w)) as [row|err]; [|discriminate].
    destruct (cache_aside.scan row cache_aside.zero); discriminate.
  - rewrite run_createRecord.
    destruct (ShouldBindJSON c cache_aside.zero) as [p|err]; [|discriminate].
    destruct (run f (cache_aside.saveToDB p) w) as [[[err|] w1] tr]; discriminate.
Qed.

Lemma absent_record_witness :
  response_of (run no_faults (order.getOrder (sample.get_id "o9"))
                 (empty_world (text := payload)))
  = c_JSON StatusNotFound (gin_H "error" "order not found")
  /\
  status (response_of (run no_faults (product.getProduct (sample.get_id "p9"))
                         (empty_world (text := payload))))
  = StatusInternalServerError
  /\
  status (response_of (run no_faults (customer.getCustomer (sample.get_id "c9"))
                         (empty_world (text := payload))))
  = StatusInternalServerError.
Proof.
  pose proof (absent_record_is_404_for_orders_only payload _)
    as (Horder & _ & Hrecord & _).
  split; [|split].
  - apply Horder; reflexivity.
  - apply (Hrecord product.Product _); reflexivity.
  - apply (Hrecord customer.Customer _); reflexivity.
Defined.

(** The body [{"id":"p1","name":"teapot","category":"kitchen"} x] is not
    JSON (json.Unmarshal rejects it), yet the create request that carries
    it is answered 201 and inserts the row: the binding reads the first
    value and never looks at what follows. *)
Lemma malformed_body_counterexample :
  json_parse (Trailing (JObject [("id", JString "p1"); ("name", JString "teapot");
                                 ("category", JString "kitchen")]) "x")
  = None /\
  ~ (status (response_of
               (run no_faults
                  (product.createProduct
                     (sample.post
                        (Trailing (JObject [("id", JString "p1");
                                            ("name", JString "teapot");
                                            ("category", JString "kitchen")]) "x")))
                  empty_world))
     = StatusBadRequest /\
     world_of (run no_faults
                 (product.createProduct
                    (sample.post
                       (Trailing (JObject [("id", JString "p1");
                                           ("name", JString "teapot");
                                           ("category", JString "kitchen")]) "x")))
                 empty_world)
     = empty_world).
Proof.
  split; [reflexivity|].
  intros [Hstatus _]. vm_compute in Hstatus. discriminate Hstatus.
Qed.

(** C4, amended: a create request whose body does not bind, that is for
    which [ShouldBindJSON] returns an error, is answered 400 before any
    call is made: the handler performs no call at all, so the primary
    store and the cache are left exactly as they were.  This holds for
    the order service and for the product and customer services.  The
    binding fails when the body does not start with a JSON value (with
    the decoder's error) and when that value does not decode into the
    struct; it reads the first value only, so bytes that follow a value
    that decodes do not make the request fail. *)
Theorem malformed_body_is_rejected_without_writes :
  forall (text : Type) (J : JSONText text),
  (forall (w : World text) f c err,
      ShouldBindJSON c order.zero = Err err ->
      run f (order.createOrder c) w
      = (c_JSON StatusBadRequest (gin_H "error" (Error err)), w, []))
  /\
  (forall T (E : cache_aside.Entity T) (w : World text) f c err,
      ShouldBindJSON c (cache_aside.zero (T := T)) = Err err ->
      run f (cache_aside.createRecord (T := T) c) w
      = (c_JSON StatusBadRequest (gin_H "error" (Error err)), w, []))
  /\
  (forall A (D : FromJSON A) (c : gin_Context text) (v : A) err,
      json_decode (request_body c) = Err err ->
      ShouldBindJSON c v = Err err)
  /\
  (forall A (D : FromJSON A) (c : gin_Context text) (v : A) j,
      json_decode (request_body c) = Ok j ->
      ShouldBindJSON c v = from_json j v)
  /\
  (forall A (D : FromJSON A) (c : gin_Context text) (v : A) j,
      json_parse (request_body c) = Some j ->
      ShouldBindJSON c v = json_Unmarshal (request_body c) v).
Proof.
  intros text J. repeat split.
  - intros w f c err Hbind. by rewrite run_createOrder, Hbind.
  - intros T E w f c err Hbind. by rewrite run_createRecord, Hbind.
  - intros A D c v err Hdecode.
    unfold ShouldBindJSON, json_Decoder_Decode. by rewrite Hdecode.
  - intros A D c v j Hdecode.
    unfold ShouldBindJSON, json_Decoder_Decode. by rewrite Hdecode.
  - intros A D c v j Hparse.
    unfold ShouldBindJSON, json_Decoder_Decode, json_Unmarshal.
    by rewrite (json_decode_parse _ _ Hparse), Hparse.
Qed.

Lemma malformed_body_witness :
  run no_faults (order.createOrder (sample.post (Garbage "{id:"))) empty_world
  = (c_JSON StatusBadRequest
       (gin_H "error" "invalid character looking for beginning of value"),
     empty_world, [])
  /\
  run no_faults (product.createProduct
                   (sample.post (Trailing (JObject [("id", JNumber "7")]) "x")))
    sample.product_cached
  = (c_JSON StatusBadRequest
       (gin_H "error"
          "json: cannot unmarshal number into Go struct field Product.id of type string"),
     sample.product_cached, [])
  /\
  run sample.cache_down (customer.createCustomer (sample.post (Garbage "")))
    empty_world
  = (c_JSON StatusBadRequest (gin_H "error" "EOF"), empty_world, []).
Proof.
  pose proof (malformed_body_is_rejected_without_writes payload _)
    as (Horder & Hrecord & Hstream & _).
  split; [|split].
  - apply (Horder empty_world no_faults (sample.post (Garbage "{id:"))
             (errors_New "invalid character looking for beginning of value")).
    apply Hstream. reflexivity.
  - apply (Hrecord product.Product _ sample.product_cached no_faults
             (sample.post (Trailing (JObject [("id", JNumber "7")]) "x"))
             (errors_New
                "json: cannot unmarshal number into Go struct field Product.id of type string")).
    reflexivity.
  - apply (Hrecord customer.Customer _ empty_world sample.cache_down
             (sample.post (Garbage "")) (errors_New "EOF")).
    apply Hstream. reflexivity.
Defined.

(** C10: the order service builds an order from any stored item, and an
    attribute among id, customerid and productid that is missing or not a
    string becomes the empty string of the order, without a line logged.
    The single read of a stored item is answered 200 with that order
    whatever the item, the scan keeps one order per item, in order, and a
    bulk export whose scan and object write go through is answered 200
    whatever the items. *)
Theorem order_decoding_is_total_and_lossy :
  forall (text : Type) (J : JSONText text),
  (forall item,
      read_lossily item "id" (order.ID (order_of_item item)) /\
      read_lossily item "customerid" (order.CustomerID (order_of_item item)) /\
      read_lossily item "productid" (order.ProductID (order_of_item item)))
  /\
  (forall (w : World text) f c item,
      GetItem_fails f = None ->
      dynamodb w !! DefaultQuery c "id" "" = Some item ->
      run f (order.getOrder c) w
      = (c_JSON StatusOK (order_of_item item), w,
         [ev (dynamo_GetItem "order"
                {[ "id" := AttributeValueMemberS (DefaultQuery c "id" "") ]})]))
  /\
  (forall (w : World text) f,
      Scan_fails f = None ->
      exists orders,
        run f order.getAllOrdersFromDynamoDB w
        = (Ok orders, w, [ev (dynamo_Scan "order")]) /\
        slice_elems orders = map order_of_item (map snd (map_to_list (dynamodb w))))
  /\
  (forall arn (w : World text) f c,
      Scan_fails f = None ->
      PutObject_fails f = None ->
      exists data,
        run f (order.saveOrdersToS3 arn c) w
        = (c_JSON StatusOK (gin_H "message" "Orders saved to S3 successfully"),
           with_s3 (<["orders_data.json" := data]> (s3 w)) w,
           [ev (dynamo_Scan "order");
            ev (s3_PutObject arn "orders_data.json" data);
            ev (log_Printf "Successfully saved data to S3" [])])).
Proof.
  intros text J. split; [|split; [|split]].
  - intros item. split; [|split].
    + apply order_of_item_ID.
    + apply order_of_item_CustomerID.
    + apply order_of_item_ProductID.
  - intros w f c item Hget Hitem. rewrite run_getOrder, Hget. cbv zeta.
    by rewrite Hitem.
  - intros w f Hscan. rewrite run_getAllOrdersFromDynamoDB, Hscan.
    eexists. split; [reflexivity|]. apply slice_elems_orders_of_items.
  - intros arn w f c Hscan Hput. eexists.
    apply (run_saveOrdersToS3_ok arn f c w Hscan Hput).
Qed.

Lemma order_decoding_witness :
  let item : AttributeMap :=
    {[ "id" := AttributeValueMemberS "o7";
       "productid" := AttributeValueMemberN "42" ]} in
  let w : World payload := mkWorld ∅ ∅ {[ "o7" := item ]} ∅ in
  response_of (run no_faults (order.getOrder (sample.get_id "o7")) w)
  = c_JSON StatusOK (order.mkOrder "o7" "" "")
  /\
  exists data,
    response_of (run no_faults
                   (order.saveOrdersToS3 sample.arn (sample.post (Garbage ""))) w)
    = c_JSON StatusOK (gin_H "message" "Orders saved to S3 successfully") /\
    s3 (world_of (run no_faults
                    (order.saveOrdersToS3 sample.arn (sample.post (Garbage ""))) w))
      !! "orders_data.json" = Some data.
Proof.
  intros item w.
  pose proof (order_decoding_is_total_and_lossy payload _)
    as (_ & Hread & _ & Hexport).
  split.
  - assert (Hitem : dynamodb w !! DefaultQuery (sample.get_id "o7") "id" ""
                    = Some item) by (vm_compute; reflexivity).
    rewrite (Hread w no_faults (sample.get_id "o7") item eq_refl Hitem).
    vm_compute. reflexivity.
  - destruct (Hexport sample.arn w no_faults (sample.post (Garbage ""))
                eq_refl eq_refl) as [data Hrun].
    exists data. rewrite Hrun. split; [reflexivity|].
    unfold world_of; simpl. apply lookup_insert_eq.
Defined.

(** ** The bulk export *)

Section ExportFacts.

Context {text : Type} `{!JSONText text}.
Variable arn : string.

Lemma json_render_inj (j1 j2 : json) :
  json_render (text := text) j1 = json_render j2 -> j1 = j2.
Proof.
  intros E. pose proof (json_parse_render (text := text) j1) as H1.
  rewrite E, json_parse_render in H1. congruence.
Qed.

(** The object written by an export that goes through. *)
Lemma exported_object f c (w : World text) :
  Scan_fails f = None ->
  PutObject_fails f = None ->
  s3 (world_of (run f (order.saveOrdersToS3 arn c) w)) !! "orders_data.json"
  = Some (json_render
            (to_json (orders_of_items (map snd (map_to_list (dynamodb w)))))).
Proof.
  intros Hscan Hput. rewrite (run_saveOrdersToS3_ok arn f c w Hscan Hput).
  unfold world_of; simpl. apply lookup_insert_eq.
Qed.

(** On a table that holds at least one item the document is an array with
    one element per item. *)
Lemma export_of_nonempty_table f c (w : World text) :
  Scan_fails f = None ->
  PutObject_fails f = None ->
  dynamodb w <> ∅ ->
  exists elems,
    s3 (world_of (run f (order.saveOrdersToS3 arn c) w)) !! "orders_data.json"
    = Some (json_render (JArray elems)) /\
    length elems = size (dynamodb w).
Proof.
  intros Hscan Hput Hne. rewrite exported_object by done.
  rewrite <- length_map_to_list.
  destruct (map_to_list (dynamodb w)) as [|[k item] l] eqn:Hl.
  - by apply map_to_list_empty_iff in Hl.
  - change (map snd ((k, item) :: l)) with (item :: map snd l).
    rewrite orders_of_items_cons.
    eexists. split; [reflexivity|]. simpl. by rewrite !length_map.
Qed.

(** Exports of the same table write the same bytes, and the second
    replaces the object of the first. *)
Lemma export_again_same_object f1 f2 c1 c2 (w : World text) :
  Scan_fails f1 = None -> PutObject_fails f1 = None ->
  Scan_fails f2 = None -> PutObject_fails f2 = None ->
  let w1 := world_of (run f1 (order.saveOrdersToS3 arn c1) w) in
  let w2 := world_of (run f2 (order.saveOrdersToS3 arn c2) w1) in
  s3 w2 = s3 w1.
Proof.
  intros Hs1 Hp1 Hs2 Hp2 w1 w2. subst w2.
  rewrite (run_saveOrdersToS3_ok arn f2 c2 w1 Hs2 Hp2).
  subst w1. rewrite (run_saveOrdersToS3_ok arn f1 c1 w Hs1 Hp1).
  unfold world_of; simpl. by rewrite insert_insert_eq.
Qed.

End ExportFacts.

(** C6: the bulk export writes one JSON document under the key
    "orders_data.json".  On an empty order table the claim does not hold:
    the scan loop never appends, the slice stays [nil], and the document
    written is [null], which is not an array ([export_of_nonempty_table]
    and [export_again_same_object] cover the table with items and the
    repeated export). *)
Theorem export_of_empty_table_writes_null :
  forall (text : Type) (J : JSONText text) arn (w : World text) f c,
    dynamodb w = ∅ ->
    Scan_fails f = None ->
    PutObject_fails f = None ->
    let outcome := run f (order.saveOrdersToS3 arn c) w in
    response_of outcome
    = c_JSON StatusOK (gin_H "message" "Orders saved to S3 successfully") /\
    s3 (world_of outcome) !! "orders_data.json" = Some (json_render JNull) /\
    forall elems, json_render (text := text) JNull <> json_render (JArray elems).
Proof.
  intros text J arn w f c Hempty Hscan Hput outcome. subst outcome.
  split; [|split].
  - by rewrite (run_saveOrdersToS3_ok arn f c w Hscan Hput).
  - rewrite exported_object by done.
    by rewrite Hempty, map_to_list_empty.
  - intros elems E. apply json_render_inj in E. discriminate.
Qed.

Lemma export_of_empty_table_witness :
  s3 (world_of (run no_faults
                  (order.saveOrdersToS3 sample.arn (sample.post (Garbage "")))
                  empty_world))
    !! "orders_data.json"
  = Some (Document JNull).
Proof.
  refine (proj1 (proj2 (export_of_empty_table_writes_null payload _ sample.arn
                          empty_world no_faults (sample.post (Garbage ""))
                          _ _ _))); reflexivity.
Defined.

(** ** Creating an id that exists *)

Lemma duplicate_order_id_counterexample :
  is_Some (dynamodb sample.order_stored !! "o1") /\
  ~ (status (response_of (run no_faults
                            (order.createOrder (sample.post sample.order_body))
                            sample.order_stored))
     = StatusInternalServerError /\
     dynamodb (world_of (run no_faults
                           (order.createOrder (sample.post sample.order_body))
                           sample.order_stored)) !! "o1"
     = dynamodb sample.order_stored !! "o1").
Proof.
  split.
  - vm_compute. eexists. reflexivity.
  - intros [Hstatus _]. vm_compute in Hstatus. discriminate Hstatus.
Qed.

(** C5, amended: every create endpoint writes without checking for the id
    first.  For products and customers the table rejects an id that
    exists: the insert is the first call, it fails (with the duplicate-key
    error of the table unless the call failed before reaching it), the
    request is answered 500 and the table and the cache are left as they
    were.  For orders the put has no condition and DynamoDB has no
    uniqueness constraint to violate: when the put goes through it
    replaces the stored item and the request is answered 201. *)
Theorem duplicate_id_is_rejected_by_the_table_and_replaced_in_dynamodb :
  forall (text : Type) (J : JSONText text),
  (forall T (E : cache_aside.Entity T) (L : EntityLaws T)
      (w : World text) f c (p : T) row,
      ShouldBindJSON c cache_aside.zero = Ok p ->
      mysql w !! cache_aside.entity_ID p = Some row ->
      let err := default DuplicateEntry (db_Exec_fails f) in
      run f (cache_aside.createRecord c) w
      = (c_JSON StatusInternalServerError (gin_H "error" "failed to save to DB"),
         w,
         [ev (db_Exec cache_aside.insertQuery (cache_aside.exec_args p));
          ev (log_Printf
                ("Error saving to DB for " ++ cache_aside.noun ++ "ID %s: %v")
                [cache_aside.entity_ID p; Error err]);
          ev (log_Printf
                ("Failed to save to DB for " ++ cache_aside.noun ++ "ID %s: %v")
                [cache_aside.entity_ID p; Error err])]))
  /\
  (forall (w : World text) f c o old,
      ShouldBindJSON c order.zero = Ok o ->
      dynamodb w !! order.ID o = Some old ->
      PutItem_fails f = None ->
      let outcome := run f (order.createOrder c) w in
      response_of outcome
      = c_JSON StatusCreated (gin_H "message" "Order created successfully") /\
      dynamodb (world_of outcome) !! order.ID o = Some (item_of_order o) /\
      calls_of outcome
      = [ev (dynamo_PutItem "order" (item_of_order o));
         ev (log_Printf "Successfully saved order to DynamoDB for orderID %s"
               [order.ID o])]).
Proof.
  intros text J. split.
  - intros T E L w f c p row Hbind Hrow err. subst err.
    rewrite run_createRecord, Hbind, run_saveToDB. cbv zeta.
    destruct (exec_args_ID p) as [rest Hargs].
    unfold perform, insert_row. rewrite Hargs.
    destruct (db_Exec_fails f) as [e|]; [reflexivity|].
    rewrite Hrow. reflexivity.
  - intros w f c o old Hbind Hold Hput outcome. subst outcome.
    rewrite run_createOrder, Hbind, Hput.
    unfold response_of, world_of, calls_of; simpl.
    split; [reflexivity|]. split; [apply lookup_insert_eq | reflexivity].
Qed.

Lemma duplicate_id_witness :
  run no_faults (product.createProduct
                   (sample.post (Document (JObject [("id", JString "p1");
                                                    ("name", JString "kettle")]))))
    sample.product_cached
  = (c_JSON StatusInternalServerError (gin_H "error" "failed to save to DB"),
     sample.product_cached,
     [ev (db_Exec "INSERT INTO product (id, name, category) VALUES (?, ?, ?)"
            ["p1"; "kettle"; ""]);
      ev (log_Printf "Error saving to DB for productID %s: %v"
            ["p1"; "Error 1062: Duplicate entry for key 'PRIMARY'"]);
      ev (log_Printf "Failed to save to DB for productID %s: %v"
            ["p1"; "Error 1062: Duplicate entry for key 'PRIMARY'"])])
  /\
  dynamodb (world_of (run no_faults
                        (order.createOrder (sample.post sample.order_body))
                        sample.order_stored)) !! "o1"
  = Some (item_of_order sample.the_order).
Proof.
  pose proof (duplicate_id_is_rejected_by_the_table_and_replaced_in_dynamodb
                payload _) as [Hrecord Horder].
  split.
  - assert (Hrow : mysql sample.product_cached !! "p1"
                   = Some ["p1"; "teapot"; "kitchen"])
      by (vm_compute; reflexivity).
    exact (Hrecord product.Product _ _ sample.product_cached no_faults
             (sample.post (Document (JObject [("id", JString "p1");
                                              ("name", JString "kettle")])))
             (product.mkProduct "p1" "kettle" "") ["p1"; "teapot"; "kitchen"]
             eq_refl Hrow).
  - refine (proj1 (proj2 (Horder sample.order_stored no_faults
                            (sample.post sample.order_body) sample.the_order
                            (item_of_order sample.earlier_order) _ _ _))).
    + reflexivity.
    + vm_compute. reflexivity.
    + reflexivity.
Defined.

(** ** Cache writes *)

Lemma last_two {A} (l : list A) a b : last (l ++ [a; b]) = Some b.
Proof.
  change (l ++ [a; b])%list with (l ++ [a] ++ [b])%list.
  by rewrite app_assoc, last_snoc.
Qed.

(** C7: in the product and customer services the answer to a request
    never depends on whether the cache write succeeds.  In particular,
    when a read misses the cache and finds the record in the table, or a
    create inserts its row, and the cache write then fails, the request
    is still answered 200 with the record, respectively 201, and the
    failure only shows as the last line logged. *)
Theorem cache_write_failure_is_swallowed :
  forall (text : Type) (J : JSONText text) T (E : cache_aside.Entity T)
         (w : World text) f c,
  let id := DefaultQuery c "id" "" in
  (forall e,
      response_of (run (with_redis_Set_fails e f) (cache_aside.getRecord (T := T) c) w)
      = response_of (run f (cache_aside.getRecord (T := T) c) w))
  /\
  (forall e,
      response_of (run (with_redis_Set_fails e f) (cache_aside.createRecord (T := T) c) w)
      = response_of (run f (cache_aside.createRecord (T := T) c) w))
  /\
  (forall (p : T) err,
      response_of (run f (cache_aside.getFromCache (T := T) id) w) = Ok None ->
      response_of (run f (cache_aside.getFromDB (T := T) id) w) = Ok p ->
      redis_Set_fails f = Some err ->
      let outcome := run f (cache_aside.getRecord (T := T) c) w in
      response_of outcome = c_JSON StatusOK p /\
      world_of outcome = w /\
      last (calls_of outcome)
      = Some (ev (log_Printf
                    ("Failed to save to cache for " ++ cache_aside.noun ++ "ID %s: %v")
                    [cache_aside.entity_ID p; Error err])))
  /\
  (forall (p : T) err,
      ShouldBindJSON c cache_aside.zero = Ok p ->
      response_of (run f (cache_aside.saveToDB p) w) = None ->
      redis_Set_fails f = Some err ->
      let outcome := run f (cache_aside.createRecord (T := T) c) w in
      response_of outcome
      = c_JSON StatusCreated
          (gin_H "message" (cache_aside.Noun ++ " created successfully")) /\
      last (calls_of outcome)
      = Some (ev (log_Printf
                    ("Failed to save to cache for " ++ cache_aside.noun ++ "ID %s: %v")
                    [cache_aside.entity_ID p; Error err]))).
Proof.
  intros text J T E w f c id. split; [|split; [|split]].
  - intros e. rewrite !run_getRecord. cbv zeta. fold id.
    rewrite !run_getFromCache.
    change (perform (with_redis_Set_fails e f) (redis_Get id) w)
      with (perform f (redis_Get id) w).
    destruct (fst (perform f (redis_Get id) w)) as [val|[| |msg]];
      [destruct (json_Unmarshal val cache_aside.zero); reflexivity
      | | reflexivity ..].
    rewrite !run_getFromDB. cbv zeta.
    change (perform (with_redis_Set_fails e f) (db_Get cache_aside.selectQuery id) w)
      with (perform f (db_Get cache_aside.selectQuery id) w).
    destruct (fst (perform f (db_Get _ id) w)) as [row|err]; [|reflexivity].
    destruct (cache_aside.scan row cache_aside.zero); reflexivity.
  - intros e. rewrite !run_createRecord.
    destruct (ShouldBindJSON c cache_aside.zero) as [p|err]; [|reflexivity].
    rewrite !run_saveToDB. cbv zeta.
    change (perform (with_redis_Set_fails e f)
              (db_Exec cache_aside.insertQuery (cache_aside.exec_args p)) w)
      with (perform f (db_Exec cache_aside.insertQuery (cache_aside.exec_args p)) w).
    destruct (fst (perform f (db_Exec _ _) w)); reflexivity.
  - intros p err Hmiss Hrow Hset outcome. subst outcome.
    rewrite run_getRecord. cbv zeta. fold id.
    destruct (run f (cache_aside.getFromCache id) w) as [[r1 w1] tr1].
    unfold response_of in Hmiss; simpl in Hmiss. subst r1.
    destruct (run f (cache_aside.getFromDB id) w) as [[r2 w2] tr2].
    unfold response_of in Hrow; simpl in Hrow. subst r2.
    rewrite run_saveToCache, Hset.
    unfold response_of, world_of, calls_of; simpl.
    repeat split. by rewrite app_assoc, last_two.
  - intros p err Hbind Hsaved Hset outcome. subst outcome.
    rewrite run_createRecord, Hbind.
    destruct (run f (cache_aside.saveToDB p) w) as [[r1 w1] tr1].
    unfold response_of in Hsaved; simpl in Hsaved. subst r1.
    rewrite run_saveToCache, Hset.
    unfold response_of, world_of, calls_of; simpl.
    split; [reflexivity|].
    apply last_two.
Qed.

Lemma cache_write_failure_witness :
  response_of (run sample.cache_read_only (customer.getCustomer (sample.get_id "c1"))
                 sample.customer_stored)
  = c_JSON StatusOK sample.the_customer
  /\
  response_of (run sample.cache_read_only
                 (product.createProduct (sample.post sample.product_body))
                 empty_world)
  = c_JSON StatusCreated (gin_H "message" "Product created successfully").
Proof.
  split.
  - pose proof (cache_write_failure_is_swallowed payload _ customer.Customer _
                  sample.customer_stored sample.cache_read_only
                  (sample.get_id "c1")) as (_ & _ & H & _).
    refine (proj1 (H sample.the_customer _ _ _ eq_refl));
      vm_compute; reflexivity.
  - pose proof (cache_write_failure_is_swallowed payload _ product.Product _
                  empty_world sample.cache_read_only
                  (sample.post sample.product_body)) as (_ & _ & _ & H).
    refine (proj1 (H sample.the_product _ eq_refl _ eq_refl));
      vm_compute; reflexivity.
Defined.

(** C8: in the product and customer services a create whose insert
    succeeds goes on to write the created record to the cache, under its
    id and with expiration 0 (no expiry): the write is the call that
    follows the insert.  When the write goes through, the cache holds the
    record, and a read of that id that reaches the cache is answered 200
    with the record by the cache alone: its only call is the Redis read,
    whatever the state of the table. *)
Theorem create_fills_the_cache :
  forall (text : Type) (J : JSONText text) T (E : cache_aside.Entity T)
         (L : EntityLaws T) (w : World text) f c (p : T),
    ShouldBindJSON c cache_aside.zero = Ok p ->
    response_of (run f (cache_aside.saveToDB p) w) = None ->
    let outcome := run f (cache_aside.createRecord (T := T) c) w in
    let data := json_render (to_json p) in
    (exists logged,
        calls_of outcome
        = [ev (db_Exec cache_aside.insertQuery (cache_aside.exec_args p));
           ev (log_Printf
                 ("Successfully saved to DB for " ++ cache_aside.noun ++ "ID %s")
                 [cache_aside.entity_ID p]);
           ev (redis_Set (cache_aside.entity_ID p) data 0);
           logged])
    /\
    (redis_Set_fails f = None ->
     redis (world_of outcome) !! cache_aside.entity_ID p = Some data /\
     forall f' c',
       DefaultQuery c' "id" "" = cache_aside.entity_ID p ->
       redis_Get_fails f' = None ->
       run f' (cache_aside.getRecord (T := T) c') (world_of outcome)
       = (c_JSON StatusOK p, world_of outcome,
          [ev (redis_Get (cache_aside.entity_ID p))])).
Proof.
  intros text J T E L w f c p Hbind Hsaved outcome data. subst outcome data.
  rewrite run_createRecord, Hbind.
  rewrite run_saveToDB in Hsaved |- *. cbv zeta in Hsaved |- *.
  destruct (fst (perform f (db_Exec _ _) w)) as [err|];
    [discriminate Hsaved|].
  lazy beta iota. rewrite run_saveToCache. cbv zeta.
  destruct (redis_Set_fails f) as [err|];
    unfold world_of, calls_of; cbn [fst snd].
  - split; [eexists; reflexivity | discriminate].
  - split; [eexists; reflexivity |]. intros _.
    split; [apply lookup_insert_eq|].
    intros f' c' Hid Hget.
    rewrite run_getRecord. cbv zeta. rewrite run_getFromCache, Hid.
    unfold perform at 1. rewrite Hget. cbn [redis with_redis].
    rewrite lookup_insert_eq. cbn [fst].
    rewrite json_Unmarshal_json_Marshal. reflexivity.
Qed.

Lemma create_fills_the_cache_witness :
  run sample.db_down (product.getProduct (sample.get_id "p1"))
    (world_of (run no_faults (product.createProduct (sample.post sample.product_body))
                 empty_world))
  = (c_JSON StatusOK sample.the_product,
     world_of (run no_faults (product.createProduct (sample.post sample.product_body))
                 empty_world),
     [ev (redis_Get "p1")]).
Proof.
  pose proof (create_fills_the_cache payload _ product.Product _ _
                empty_world no_faults (sample.post sample.product_body)
                sample.the_product eq_refl) as H.
  assert (Hsaved : response_of (run no_faults
                                  (cache_aside.saveToDB sample.the_product)
                                  (empty_world (text := payload))) = None)
    by (vm_compute; reflexivity).
  destruct (H Hsaved) as [_ Hcache].
  destruct (Hcache eq_refl) as [_ Hread].
  exact (Hread sample.db_down (sample.get_id "p1") eq_refl eq_refl).
Defined.

(** C9: in every state a product or customer service reaches from empty
    stores by serving create and read requests, whatever fails on the
    way, every cache entry under a key decodes to the record that the
    table holds under that id: the cache never holds a record that is
    absent from, or differs from, the table. *)
Theorem cache_is_coherent_with_the_table :
  forall (text : Type) (J : JSONText text) T (E : cache_aside.Entity T)
         (L : EntityLaws T) (w : World text),
    cache_aside_server.reachable (T := T) w ->
    cache_aside_server.cache_coherent (T := T) w.
Proof.
  intros text J T E L w Hreach.
  apply cache_ok_coherent. by apply invariant_reachable.
Qed.

Lemma cache_is_coherent_witness :
  cache_aside_server.cache_coherent (T := customer.Customer)
    (cache_aside_server.serve_all (empty_world (text := payload))
       [(no_faults, cache_aside_server.POST (sample.post sample.customer_body));
        (sample.db_down, cache_aside_server.GET (sample.get_id "c1"));
        (sample.cache_read_only,
         cache_aside_server.POST (sample.post sample.customer_body))]).
Proof.
  apply (cache_is_coherent_with_the_table payload _ customer.Customer _ _).
  apply reachable_serve_all. constructor.
Defined.

(** * Further properties of the handlers *)

(** ** Requests that fail *)

Section FailureFacts.

Context {text : Type} `{!JSONText text}.

Lemma run_saveOrdersToS3 arn f c (w : World text) :
  run f (order.saveOrdersToS3 arn c) w =
  match Scan_fails f with
  | Some err =>
      (c_JSON StatusInternalServerError (gin_H "error" "failed to fetch orders"),
       w,
       [ev (dynamo_Scan "order");
        ev (log_Printf "Failed to fetch orders from DynamoDB: %v" [Error err])])
  | None =>
      let data :=
        json_render (to_json (orders_of_items (map snd (map_to_list (dynamodb w))))) in
      match PutObject_fails f with
      | Some err =>
          (c_JSON StatusInternalServerError (gin_H "error" "failed to save data to S3"),
           w,
           [ev (dynamo_Scan "order");
            ev (s3_PutObject arn "orders_data.json" data);
            ev (log_Printf "Error saving data to S3: %v" [Error err]);
            ev (log_Printf "Failed to save data to S3: %v" [Error err])])
      | None =>
          (c_JSON StatusOK (gin_H "message" "Orders saved to S3 successfully"),
           with_s3 (<["orders_data.json" := data]> (s3 w)) w,
           [ev (dynamo_Scan "order");
            ev (s3_PutObject arn "orders_data.json" data);
            ev (log_Printf "Successfully saved data to S3" [])])
      end
  end.
Proof.
  unfold order.saveOrdersToS3.
  rewrite run_bind, run_getAllOrdersFromDynamoDB.
  destruct (Scan_fails f) as [err|]; [reflexivity|].
  unfold json_Marshal. rewrite run_bind, run_saveDataToS3.
  destruct (PutObject_fails f) as [err|]; reflexivity.
Qed.

End FailureFacts.

(** X1: a request that is answered with an error status (400 or above)
    has written nothing: the stores, the cache and the bucket are as they
    were before the request.  This holds for the three routes of the order
    service and the two routes of the product and customer services. *)
Theorem failed_requests_write_nothing :
  forall (text : Type) (J : JSONText text),
  (forall arn (w : World text) f r,
      400 <= status (response_of (run f (order_server.handler arn r) w)) ->
      world_of (run f (order_server.handler arn r) w) = w)
  /\
  (forall T (E : cache_aside.Entity T) (w : World text) f r,
      400 <= status (response_of
                       (run f (cache_aside_server.handler (T := T) r) w)) ->
      world_of (run f (cache_aside_server.handler (T := T) r) w) = w).
Proof.
  intros text J. split.
  - intros arn w f [c|c|c]; cbn [order_server.handler].
    + rewrite run_getOrder. cbv zeta. by destruct (GetItem_fails f).
    + rewrite run_createOrder.
      destruct (ShouldBindJSON c order.zero) as [o|err]; [|done].
      destruct (PutItem_fails f); [done|].
      unfold response_of; simpl. unfold StatusCreated. lia.
    + rewrite run_saveOrdersToS3.
      destruct (Scan_fails f); [done|]. cbv zeta.
      destruct (PutObject_fails f); [done|].
      unfold response_of; simpl. unfold StatusOK. lia.
  - intros T E w f [c|c]; cbn [cache_aside_server.handler].
    + rewrite run_getRecord. cbv zeta. rewrite run_getFromCache.
      destruct (fst (perform f (redis_Get _) w)) as [val|[| |msg]];
        [destruct (json_Unmarshal val cache_aside.zero); done | | done ..].
      rewrite run_getFromDB. cbv zeta.
      destruct (fst (perform f (db_Get _ _) w)) as [row|err]; [|done].
      destruct (cache_aside.scan row cache_aside.zero); [|done].
      unfold response_of; simpl. unfold StatusOK. lia.
    + rewrite run_createRecord.
      destruct (ShouldBindJSON c cache_aside.zero) as [p|err]; [|done].
      rewrite run_saveToDB. cbv zeta.
      destruct (fst (perform f (db_Exec _ _) w)); [done|].
      unfold response_of; simpl. unfold StatusCreated. lia.
Qed.

Lemma failed_requests_witness :
  world_of (run no_faults
              (order_server.handler sample.arn
                 (order_server.POST_order (sample.post (Garbage "["))))
              sample.order_stored)
  = sample.order_stored
  /\
  world_of (run sample.db_down
              (cache_aside_server.handler (T := customer.Customer)
                 (cache_aside_server.POST (sample.post sample.customer_body)))
              sample.customer_stored)
  = sample.customer_stored.
Proof.
  pose proof (failed_requests_write_nothing payload _) as [Horder Hrecord].
  split.
  - apply Horder. vm_compute. discriminate.
  - apply (Hrecord customer.Customer _). vm_compute. discriminate.
Defined.

(** ** Reads *)

(** X2: a read never writes to a primary store.  [getOrder] writes
    nothing at all and makes exactly one store call, the [GetItem] of the
    requested id (plus log lines).  [getRecord] ([getProduct],
    [getCustomer]) makes no call that writes the table, and the world it
    leaves differs from the one it found at most in the cache. *)
Theorem reads_never_write_the_primary_store :
  forall (text : Type) (J : JSONText text),
  (forall (w : World text) f c,
      world_of (run f (order.getOrder c) w) = w /\
      Forall (fun e => is_write e = false) (calls_of (run f (order.getOrder c) w)) /\
      filter (fun e => touches_primary_store e = true)
        (calls_of (run f (order.getOrder c) w))
      = [ev (dynamo_GetItem "order"
               {[ "id" := AttributeValueMemberS (DefaultQuery c "id" "") ]})])
  /\
  (forall T (E : cache_aside.Entity T) (w : World text) f c,
      let outcome := run f (cache_aside.getRecord (T := T) c) w in
      Forall (fun e => writes_primary_store e = false) (calls_of outcome) /\
      world_of outcome = with_redis (redis (world_of outcome)) w).
Proof.
  intros text J. split.
  - intros w f c. rewrite run_getOrder. cbv zeta.
    destruct (GetItem_fails f); unfold world_of, calls_of; simpl;
      repeat split; repeat constructor.
  - intros T E w f c outcome. subst outcome.
    rewrite run_getRecord. cbv zeta. rewrite run_getFromCache.
    assert (Hw : with_redis (redis w) w = w) by by destruct w.
    destruct (fst (perform f (redis_Get _) w)) as [val|[| |msg]];
      [destruct (json_Unmarshal val cache_aside.zero)| | |];
      try (unfold world_of, calls_of; simpl; split;
           [repeat constructor | by rewrite Hw]).
    rewrite run_getFromDB. cbv zeta.
    destruct (fst (perform f (db_Get _ _) w)) as [row|err];
      [destruct (cache_aside.scan row cache_aside.zero) as [p|err]|];
      try (unfold world_of, calls_of; simpl; split;
           [repeat constructor | by rewrite Hw]).
    rewrite run_saveToCache. cbv zeta.
    destruct (redis_Set_fails f); unfold world_of, calls_of; simpl;
      (split; [repeat constructor | by destruct w]).
Qed.

(** ** Creating orders *)

(** X3: [createOrder] is answered 201 exactly when the body decodes and
    the put goes through, and 400 exactly when the body does not decode.
    Whatever the answer, it leaves the cache, the relational table and
    the bucket alone, and in the order table it leaves every item alone
    except the one under the id of the decoded order. *)
Theorem create_order_contract :
  forall (text : Type) (J : JSONText text) (w : World text) f c,
  let outcome := run f (order.createOrder c) w in
  (status (response_of outcome) = StatusCreated <->
   exists o, ShouldBindJSON c order.zero = Ok o /\ PutItem_fails f = None) /\
  (status (response_of outcome) = StatusBadRequest <->
   exists err, ShouldBindJSON c order.zero = Err err) /\
  redis (world_of outcome) = redis w /\
  mysql (world_of outcome) = mysql w /\
  s3 (world_of outcome) = s3 w /\
  (forall k,
      (forall o, ShouldBindJSON c order.zero = Ok o -> order.ID o <> k) ->
      dynamodb (world_of outcome) !! k = dynamodb w !! k).
Proof.
  intros text J w f c outcome. subst outcome. rewrite run_createOrder.
  destruct (ShouldBindJSON c order.zero) as [o|err].
  - destruct (PutItem_fails f) as [err|];
      unfold response_of, world_of; simpl; repeat split;
      try discriminate; try (intros (x & Hx & Hy); discriminate);
      try (intros (x & Hx); discriminate); eauto.
    intros k Hk. apply lookup_insert_ne. by apply Hk.
  - unfold response_of, world_of; simpl; repeat split;
      try discriminate; try (intros (x & Hx & Hy); discriminate); eauto.
Qed.

(** X4: creating an order is idempotent: a create that is repeated after
    it succeeded is answered 201 again and leaves the stores exactly as
    the first one left them. *)
Theorem create_order_is_idempotent :
  forall (text : Type) (J : JSONText text) (w : World text) f1 f2 c,
    status (response_of (run f1 (order.createOrder c) w)) = StatusCreated ->
    PutItem_fails f2 = None ->
    let w1 := world_of (run f1 (order.createOrder c) w) in
    response_of (run f2 (order.createOrder c) w1)
    = response_of (run f1 (order.createOrder c) w) /\
    world_of (run f2 (order.createOrder c) w1) = w1.
Proof.
  intros text J w f1 f2 c Hcreated Hput w1. subst w1.
  rewrite !run_createOrder in *.
  destruct (ShouldBindJSON c order.zero) as [o|err]; [|discriminate].
  rewrite Hput. destruct (PutItem_fails f1); [discriminate|].
  unfold response_of, world_of; simpl. split; [reflexivity|].
  unfold with_dynamodb; simpl. by rewrite insert_insert_eq.
Qed.

Lemma create_order_is_idempotent_witness :
  world_of (run no_faults (order.createOrder (sample.post sample.order_body))
              (world_of (run no_faults
                           (order.createOrder (sample.post sample.order_body))
                           sample.order_stored)))
  = world_of (run no_faults (order.createOrder (sample.post sample.order_body))
                sample.order_stored).
Proof.
  refine (proj2 (create_order_is_idempotent payload _ sample.order_stored
                   no_faults no_faults (sample.post sample.order_body) _ _)).
  - vm_compute. reflexivity.
  - reflexivity.
Defined.

(** ** The bulk export *)

(** X5: how the bulk export fails, and what it touches.  When the scan
    fails the request is answered 500 "failed to fetch orders" and no
    object write is attempted; when the object write fails it is answered
    500 "failed to save data to S3"; in both cases the world is unchanged,
    so an earlier export stays in the bucket.  In every case the order
    table is left as it is and no object other than "orders_data.json" is
    touched. *)
Theorem export_failures_and_frame :
  forall (text : Type) (J : JSONText text) arn (w : World text) f c,
  let outcome := run f (order.saveOrdersToS3 arn c) w in
  (forall err, Scan_fails f = Some err ->
      outcome
      = (c_JSON StatusInternalServerError (gin_H "error" "failed to fetch orders"),
         w,
         [ev (dynamo_Scan "order");
          ev (log_Printf "Failed to fetch orders from DynamoDB: %v" [Error err])]))
  /\
  (forall err, Scan_fails f = None -> PutObject_fails f = Some err ->
      response_of outcome
      = c_JSON StatusInternalServerError (gin_H "error" "failed to save data to S3") /\
      world_of outcome = w)
  /\
  dynamodb (world_of outcome) = dynamodb w /\
  redis (world_of outcome) = redis w /\
  mysql (world_of outcome) = mysql w /\
  (forall key, key <> "orders_data.json" ->
      s3 (world_of outcome) !! key = s3 w !! key).
Proof.
  intros text J arn w f c outcome. subst outcome. rewrite run_saveOrdersToS3.
  destruct (Scan_fails f) as [e1|].
  - repeat split; try discriminate. by intros err [= <-].
  - cbv zeta. destruct (PutObject_fails f) as [e2|];
      unfold response_of, world_of; simpl; repeat split; try discriminate.
    intros key Hkey. by apply lookup_insert_ne.
Qed.

Lemma export_failures_witness :
  world_of (run (mkFaults None None None None None None None
                   (Some (errors_New "AccessDenied")))
              (order.saveOrdersToS3 sample.arn (sample.post (Garbage "")))
              sample.order_stored)
  = sample.order_stored.
Proof.
  pose proof (export_failures_and_frame payload _ sample.arn sample.order_stored
                (mkFaults None None None None None None None
                   (Some (errors_New "AccessDenied")))
                (sample.post (Garbage ""))) as (_ & H & _).
  exact (proj2 (H (errors_New "AccessDenied") eq_refl eq_refl)).
Defined.

(** X6: the bulk export makes one Scan and writes what that Scan
    returned.  The handler starts with the Scan, and for every answer the
    Scan may give, also one that carries a [LastEvaluatedKey] because the
    table did not fit in it, the handler asks for no further page: when
    the object write goes through, its remaining calls are the object
    write and a log line, the answer is 200, and the document written is
    the encoding of the orders decoded from the returned items, in order:
    an array with one element per returned item when there is at least
    one. *)
Theorem export_writes_what_the_scan_returned :
  forall (text : Type) (J : JSONText text) arn c,
  exists after_scan,
    order.saveOrdersToS3 (text := text) arn c
    = Vis (dynamo_Scan "order") after_scan /\
    forall (out : ScanOutput) f (w : World text),
      PutObject_fails f = None ->
      let data := json_render (to_json (orders_of_items (Items out))) in
      run f (after_scan (Ok out)) w
      = (c_JSON StatusOK (gin_H "message" "Orders saved to S3 successfully"),
         with_s3 (<["orders_data.json" := data]> (s3 w)) w,
         [ev (s3_PutObject arn "orders_data.json" data);
          ev (log_Printf "Successfully saved data to S3" [])]) /\
      (Items out <> [] ->
       to_json (orders_of_items (Items out))
       = JArray (map (fun item => to_json (order_of_item item)) (Items out))).
Proof.
  intros text J arn c. eexists. split; [reflexivity|].
  intros out f w Hput data. subst data. cbv beta. split.
  - change (bind (Ret (Ok (fold_left order.scan_item (Items out) nil_slice))) ?k)
      with (k (Ok (orders_of_items (Items out)))).
    cbv beta iota. unfold json_Marshal.
    rewrite run_bind, (run_saveDataToS3 arn), Hput. reflexivity.
  - intros Hne. destruct (Items out) as [|item items]; [done|].
    rewrite orders_of_items_cons.
    change (to_json (make_slice ?l)) with (JArray (map to_json l)).
    by rewrite map_map.
Qed.

Lemma export_writes_what_the_scan_returned_witness :
  exists after_scan,
    order.saveOrdersToS3 (text := payload) sample.arn (sample.post (Garbage ""))
    = Vis (dynamo_Scan "order") after_scan /\
    s3 (world_of
          (run no_faults
             (after_scan
                (Ok (mkScanOutput
                       [item_of_order sample.the_order;
                        item_of_order sample.earlier_order]
                       (Some {[ "id" := AttributeValueMemberS "o1" ]}))))
             empty_world)) !! "orders_data.json"
    = Some (Document (JArray [to_json sample.the_order;
                              to_json sample.earlier_order])).
Proof.
  destruct (export_writes_what_the_scan_returned payload _ sample.arn
              (sample.post (Garbage ""))) as (after_scan & Hstart & Hrest).
  exists after_scan. split; [exact Hstart|].
  destruct (Hrest (mkScanOutput
                     [item_of_order sample.the_order;
                      item_of_order sample.earlier_order]
                     (Some {[ "id" := AttributeValueMemberS "o1" ]}))
              no_faults empty_world eq_refl) as [Hrun _].
  rewrite Hrun. vm_compute. reflexivity.
Defined.

(** ** Reads of the cache-aside services *)

Section ReadThroughFacts.

Context {text : Type} `{!JSONText text}.
Context {T : Type} `{!cache_aside.Entity T}.

Import cache_aside.

(** A read either leaves the world as it is, or it missed the cache, found
    the row, and its cache write went through. *)
Lemma getRecord_fill f c (w : World text) :
  let id := DefaultQuery c "id" "" in
  world_of (run f (getRecord (T := T) c) w) = w \/
  exists row (p : T),
    fst (perform f (redis_Get id) w) = Err redis_Nil /\
    fst (perform f (db_Get selectQuery id) w) = Ok row /\
    scan row zero = Ok p /\
    redis_Set_fails f = None /\
    response_of (run f (getRecord (T := T) c) w) = c_JSON StatusOK p /\
    world_of (run f (getRecord (T := T) c) w)
    = with_redis (<[entity_ID p := json_render (to_json p)]> (redis w)) w.
Proof.
  cbv zeta. rewrite run_getRecord. cbv zeta. rewrite run_getFromCache.
  destruct (fst (perform f (redis_Get _) w)) as [val|[| |msg]] eqn:Hget;
    [destruct (json_Unmarshal val zero); left; reflexivity | | left; reflexivity ..].
  rewrite run_getFromDB. cbv zeta.
  destruct (fst (perform f (db_Get _ _) w)) as [row|err] eqn:Hdb;
    [|left; reflexivity].
  destruct (scan row zero) as [p|err] eqn:Hscan; [|left; reflexivity].
  rewrite run_saveToCache. cbv zeta.
  destruct (redis_Set_fails f) eqn:Hset; [left; reflexivity|].
  right. exists row, p. repeat split; done.
Qed.

Lemma getRecord_served_by_cache `{!EntityLaws T} f c (w : World text) (p : T) :
  redis_Get_fails f = None ->
  redis w !! DefaultQuery c "id" "" = Some (json_render (to_json p)) ->
  run f (getRecord (T := T) c) w
  = (c_JSON StatusOK p, w, [ev (redis_Get (DefaultQuery c "id" ""))]).
Proof.
  intros Hget Hentry. rewrite run_getRecord. cbv zeta. rewrite run_getFromCache.
  unfold perform at 1. rewrite Hget, Hentry. cbn [fst].
  rewrite json_Unmarshal_json_Marshal. reflexivity.
Qed.

End ReadThroughFacts.

(** X7: a read fills the cache.  When a read of the product or customer
    service misses the cache, finds the record in the table and its cache
    write goes through, the request is answered 200 with the record and
    the cache afterwards holds the encoding of the record under the
    record's id; a following read of that id that reaches the cache is
    answered 200 with the same record by the single Redis read. *)
Theorem read_fills_the_cache :
  forall (text : Type) (J : JSONText text) T (E : cache_aside.Entity T)
         (L : EntityLaws T) (w : World text) f c (p : T),
    let id := DefaultQuery c "id" "" in
    response_of (run f (cache_aside.getFromCache (T := T) id) w) = Ok None ->
    response_of (run f (cache_aside.getFromDB (T := T) id) w) = Ok p ->
    redis_Set_fails f = None ->
    let outcome := run f (cache_aside.getRecord (T := T) c) w in
    response_of outcome = c_JSON StatusOK p /\
    world_of outcome
    = with_redis (<[cache_aside.entity_ID p := json_render (to_json p)]> (redis w)) w /\
    forall f' c',
      DefaultQuery c' "id" "" = cache_aside.entity_ID p ->
      redis_Get_fails f' = None ->
      run f' (cache_aside.getRecord (T := T) c') (world_of outcome)
      = (c_JSON StatusOK p, world_of outcome,
         [ev (redis_Get (cache_aside.entity_ID p))]).
Proof.
  intros text J T E L w f c p id Hmiss Hrow Hset outcome.
  assert (Houtcome :
            response_of outcome = c_JSON StatusOK p /\
            world_of outcome
            = with_redis
                (<[cache_aside.entity_ID p := json_render (to_json p)]> (redis w)) w).
  { subst outcome. rewrite run_getRecord. cbv zeta. fold id.
    destruct (run f (cache_aside.getFromCache id) w) as [[r1 w1] tr1].
    unfold response_of in Hmiss; simpl in Hmiss. subst r1.
    destruct (run f (cache_aside.getFromDB id) w) as [[r2 w2] tr2].
    unfold response_of in Hrow; simpl in Hrow. subst r2.
    rewrite run_saveToCache, Hset. split; reflexivity. }
  destruct Houtcome as [Hresp Hworld]. split; [done|]. split; [done|].
  intros f' c' Hid Hget. rewrite <- Hid.
  apply getRecord_served_by_cache; [done|].
  rewrite Hworld, Hid. simpl. apply lookup_insert_eq.
Qed.

Lemma read_fills_the_cache_witness :
  run sample.db_down (customer.getCustomer (sample.get_id "c1"))
    (world_of (run no_faults (customer.getCustomer (sample.get_id "c1"))
                 sample.customer_stored))
  = (c_JSON StatusOK sample.the_customer,
     world_of (run no_faults (customer.getCustomer (sample.get_id "c1"))
                 sample.customer_stored),
     [ev (redis_Get "c1")]).
Proof.
  assert (Hmiss : response_of
                    (run no_faults
                       (cache_aside.getFromCache (T := customer.Customer) "c1")
                       sample.customer_stored) = Ok None)
    by (vm_compute; reflexivity).
  assert (Hrow : response_of
                   (run no_faults
                      (cache_aside.getFromDB (T := customer.Customer) "c1")
                      sample.customer_stored) = Ok sample.the_customer)
    by (vm_compute; reflexivity).
  destruct (read_fills_the_cache payload _ customer.Customer _ _
              sample.customer_stored no_faults (sample.get_id "c1")
              sample.the_customer Hmiss Hrow eq_refl) as (_ & _ & Hnext).
  exact (Hnext sample.db_down (sample.get_id "c1") eq_refl eq_refl).
Defined.

(** X8: reading is idempotent for the client: a read repeated under the
    same conditions right after the first is given the same answer,
    whether or not the first one filled the cache. *)
Theorem repeated_read_same_answer :
  forall (text : Type) (J : JSONText text) T (E : cache_aside.Entity T)
         (L : EntityLaws T) (w : World text) f c,
    response_of (run f (cache_aside.getRecord (T := T) c)
                   (world_of (run f (cache_aside.getRecord (T := T) c) w)))
    = response_of (run f (cache_aside.getRecord (T := T) c) w).
Proof.
  intros text J T E L w f c.
  destruct (getRecord_fill (T := T) f c w)
    as [-> | (row & p & Hmiss & Hdb & Hscan & Hset & Hresp & Hworld)];
    [reflexivity|].
  rewrite Hresp, Hworld.
  set (id := DefaultQuery c "id" "") in *.
  set (w' := with_redis _ w).
  rewrite run_getRecord. cbv zeta. fold id. rewrite run_getFromCache.
  assert (Hdb' : perform f (db_Get cache_aside.selectQuery id) w'
                 = (Ok row, w')).
  { unfold perform in Hdb |- *. destruct (db_Get_fails f); [discriminate|].
    change (mysql w') with (mysql w).
    destruct (mysql w !! id); simpl in Hdb; [|discriminate]. congruence. }
  unfold perform at 1. unfold perform in Hmiss.
  destruct (redis_Get_fails f) as [e|].
  - simpl in Hmiss. injection Hmiss as ->. cbn [fst].
    rewrite run_getFromDB. cbv zeta. rewrite Hdb'. cbn [fst].
    rewrite Hscan. reflexivity.
  - destruct (redis w !! id) eqn:Hold; [discriminate|].
    subst w'. cbn [redis with_redis]. rewrite lookup_insert.
    case_decide as Hk.
    + cbn [fst]. rewrite json_Unmarshal_json_Marshal. reflexivity.
    + rewrite Hold. cbn [fst].
      rewrite run_getFromDB. cbv zeta. rewrite Hdb'. cbn [fst].
      rewrite Hscan. reflexivity.
Qed.

Lemma repeated_read_witness :
  response_of (run no_faults (customer.getCustomer (sample.get_id "c1"))
                 (world_of (run no_faults (customer.getCustomer (sample.get_id "c1"))
                              sample.customer_stored)))
  = response_of (run no_faults (customer.getCustomer (sample.get_id "c1"))
                   sample.customer_stored).
Proof.
  exact (repeated_read_same_answer payload _ customer.Customer _ _
           sample.customer_stored no_faults (sample.get_id "c1")).
Defined.

(** ** Creating products and customers *)

(** X9: [createRecord] ([createProduct], [createCustomer]) is answered 400
    exactly when the body does not decode, and 201 exactly when the body
    decodes, no row has the id and the insert call goes through; it is
    answered 500 otherwise.  A create answered 201 adds exactly one row,
    and a create that is not answered 201 makes no cache write: nothing
    is cached that was not inserted. *)
Theorem create_record_contract :
  forall (text : Type) (J : JSONText text) T (E : cache_aside.Entity T)
         (L : EntityLaws T) (w : World text) f c,
  let outcome := run f (cache_aside.createRecord (T := T) c) w in
  (status (response_of outcome) = StatusBadRequest <->
   exists err, ShouldBindJSON c (cache_aside.zero (T := T)) = Err err) /\
  (status (response_of outcome) = StatusCreated <->
   exists p : T, ShouldBindJSON c cache_aside.zero = Ok p /\
                 db_Exec_fails f = None /\
                 mysql w !! cache_aside.entity_ID p = None) /\
  (status (response_of outcome) = StatusBadRequest \/
   status (response_of outcome) = StatusCreated \/
   status (response_of outcome) = StatusInternalServerError) /\
  (status (response_of outcome) = StatusCreated ->
   size (mysql (world_of outcome)) = S (size (mysql w))) /\
  (status (response_of outcome) <> StatusCreated ->
   Forall (fun e => is_cache_write e = false) (calls_of outcome)).
Proof.
  intros text J T E L w f c outcome. subst outcome.
  rewrite run_createRecord.
  destruct (ShouldBindJSON c cache_aside.zero) as [p|err].
  - rewrite run_saveToDB. cbv zeta.
    destruct (exec_args_ID p) as [rest Hargs].
    unfold perform, insert_row. rewrite Hargs.
    destruct (db_Exec_fails f) as [e|].
    + unfold response_of, world_of, calls_of; simpl.
      repeat split; try discriminate; try tauto;
        try (intros (x & Hx & Hy & Hz); discriminate);
        try (intros (x & Hx); discriminate).
      repeat constructor.
    + destruct (mysql w !! cache_aside.entity_ID p) as [row|] eqn:Hrow.
      * unfold response_of, world_of, calls_of; simpl.
        repeat split; try discriminate; try tauto;
          try (intros (x & Hx); discriminate).
        -- intros (x & [= <-] & _ & Hfree). congruence.
        -- repeat constructor.
      * cbn [fst snd]. rewrite run_saveToCache. cbv zeta.
        destruct (redis_Set_fails f);
          unfold response_of, world_of, calls_of; simpl;
          (repeat split; try discriminate; try tauto;
           try (intros (x & Hx); discriminate); eauto;
           try (intros _; by apply map_size_insert_None);
           try (intros Hne; by destruct Hne)).
  - unfold response_of, world_of, calls_of; simpl.
    repeat split; try discriminate; try tauto; eauto;
      try (intros (x & Hx & Hy & Hz); discriminate).
Qed.

Lemma create_record_contract_witness :
  status (response_of (run sample.cache_down
                         (product.createProduct (sample.post sample.product_body))
                         empty_world))
  = StatusCreated.
Proof.
  apply (proj1 (proj2 (create_record_contract payload _ product.Product _ _
                         empty_world sample.cache_down
                         (sample.post sample.product_body)))).
  exists sample.the_product. repeat split; reflexivity.
Defined.

(** X10: a create touches only its own id: whatever its answer, the row
    and the cache entry of every other id are as before, and the DynamoDB
    table and the bucket are not touched. *)
Theorem create_record_touches_only_its_id :
  forall (text : Type) (J : JSONText text) T (E : cache_aside.Entity T)
         (L : EntityLaws T) (w : World text) f c,
  let w' := world_of (run f (cache_aside.createRecord (T := T) c) w) in
  dynamodb w' = dynamodb w /\
  s3 w' = s3 w /\
  forall k,
    (forall p : T, ShouldBindJSON c cache_aside.zero = Ok p ->
                   cache_aside.entity_ID p <> k) ->
    mysql w' !! k = mysql w !! k /\ redis w' !! k = redis w !! k.
Proof.
  intros text J T E L w f c w'. subst w'.
  destruct (world_createRecord f c w) as [-> | (p & Hbind & _ & Hw)]; [done|].
  cbv zeta in Hw.
  destruct Hw as [-> | ->]; simpl; (split; [done|]); (split; [done|]);
    intros k Hk; specialize (Hk p Hbind);
    rewrite ?lookup_insert_ne by done; done.
Qed.

Lemma create_record_frame_witness :
  redis (world_of (run no_faults
                     (product.createProduct
                        (sample.post (Document (JObject [("id", JString "p2")]))))
                     sample.product_cached)) !! "p1"
  = redis sample.product_cached !! "p1".
Proof.
  pose proof (create_record_touches_only_its_id payload _ product.Product _ _
                sample.product_cached no_faults
                (sample.post (Document (JObject [("id", JString "p2")]))))
    as (_ & _ & H).
  refine (proj2 (H "p1" _)).
  intros p [= <-]. vm_compute. discriminate.
Defined.

(** ** What is stored stays *)

Section Persistence.

Context {text : Type} `{!JSONText text}.
Context {T : Type} `{!cache_aside.Entity T} `{!EntityLaws T}.

Import cache_aside cache_aside_server.

Lemma cache_entry_persists_serve (w : World text) fr k data :
  table_ok (T := T) w -> cache_ok (T := T) w ->
  redis w !! k = Some data ->
  redis (serve (T := T) w fr) !! k = Some data.
Proof.
  intros Ht Hc Hentry. destruct (Hc _ _ Hentry) as (q & -> & Hq & Hqrow).
  destruct fr as [f [c|c]]; unfold serve; cbn [fst snd handler].
  - destruct (world_getRecord f c w) as [-> | (row & p & Hrow & Hscan & ->)];
      [done|].
    destruct (Ht _ _ Hrow) as (p' & -> & Hid).
    rewrite scan_exec_args in Hscan. injection Hscan as ->.
    simpl. rewrite lookup_insert. case_decide as Hk; [|done].
    assert (k = DefaultQuery c "id" "") as -> by congruence.
    rewrite Hrow in Hqrow. injection Hqrow as Hqrow.
    apply exec_args_inj in Hqrow. by subst q.
  - destruct (world_createRecord f c w) as [-> | (p & _ & Hfree & Hw)]; [done|].
    cbv zeta in Hw. destruct Hw as [-> | ->]; simpl; [done|].
    rewrite lookup_insert_ne; [done|]. intros Hk. rewrite Hk in Hfree. congruence.
Qed.

Lemma cache_entry_persists_serve_all l (w : World text) k data :
  table_ok (T := T) w -> cache_ok (T := T) w ->
  redis w !! k = Some data ->
  redis (serve_all (T := T) w l) !! k = Some data.
Proof.
  revert w. induction l as [|fr l IH]; intros w Ht Hc Hentry; [done|].
  simpl. destruct (invariant_serve w fr Ht Hc) as [Ht' Hc'].
  apply IH; [done..|]. by apply cache_entry_persists_serve.
Qed.

End Persistence.

(** X11: what the product and customer services have stored stays as it
    is.  No sequence of requests, under any failures, changes or removes
    a row of the table; and in a service started on empty stores no
    sequence of requests changes or removes a cache entry. *)
Theorem rows_and_cache_entries_never_change :
  forall (text : Type) (J : JSONText text) T (E : cache_aside.Entity T)
         (L : EntityLaws T),
  (forall (w : World text) l k row,
      mysql w !! k = Some row ->
      mysql (cache_aside_server.serve_all (T := T) w l) !! k = Some row)
  /\
  (forall (w : World text) l k data,
      cache_aside_server.reachable (T := T) w ->
      redis w !! k = Some data ->
      redis (cache_aside_server.serve_all (T := T) w l) !! k = Some data).
Proof.
  intros text J T E L. split.
  - intros w l k row Hrow. by apply row_persists_serve_all.
  - intros w l k data Hreach Hentry.
    destruct (invariant_reachable _ Hreach) as [Ht Hc].
    by apply cache_entry_persists_serve_all.
Qed.

Lemma rows_and_cache_entries_witness :
  let w := cache_aside_server.serve (T := product.Product) (empty_world (text := payload))
             (no_faults, cache_aside_server.POST (sample.post sample.product_body)) in
  let l := [(sample.cache_read_only,
             cache_aside_server.POST
               (sample.post (Document (JObject [("id", JString "p1");
                                                ("name", JString "kettle")]))));
            (sample.db_down, cache_aside_server.GET (sample.get_id "p1"))] in
  mysql (cache_aside_server.serve_all (T := product.Product) w l) !! "p1"
  = Some ["p1"; "teapot"; "kitchen"]
  /\
  redis (cache_aside_server.serve_all (T := product.Product) w l) !! "p1"
  = Some (Document (to_json sample.the_product)).
Proof.
  intros w l.
  pose proof (rows_and_cache_entries_never_change payload _ product.Product _ _)
    as [Hrows Hcache].
  split.
  - apply Hrows. vm_compute. reflexivity.
  - apply Hcache.
    + constructor. constructor.
    + vm_compute. reflexivity.
Defined.

(** ** One cache for two services *)

(** X12: the product and customer services both key the cache by the bare
    id, and their structs share the tags [id] and [name].  An entry
    written by [saveToCache] of one service is therefore accepted by the
    read of the other: a product read that finds a customer's entry under
    the id is answered 200 with the customer's id and name as a product
    without category, and the other way round, without a call to the
    table. *)
Theorem cache_entries_are_read_across_services :
  forall (text : Type) (J : JSONText text) (w : World text) f c,
  let id := DefaultQuery c "id" "" in
  redis_Get_fails f = None ->
  (forall cust : customer.Customer,
      redis w !! id = Some (json_render (to_json cust)) ->
      run f (product.getProduct c) w
      = (c_JSON StatusOK
           (product.mkProduct (customer.ID cust) (customer.Name cust) ""),
         w, [ev (redis_Get id)]))
  /\
  (forall prod : product.Product,
      redis w !! id = Some (json_render (to_json prod)) ->
      run f (customer.getCustomer c) w
      = (c_JSON StatusOK
           (customer.mkCustomer (product.ID prod) (product.Name prod) ""),
         w, [ev (redis_Get id)])).
Proof.
  intros text J w f c id Hget. split.
  - intros [i n g] Hentry. unfold product.getProduct.
    rewrite run_getRecord. cbv zeta. fold id. rewrite run_getFromCache.
    unfold perform at 1. rewrite Hget, Hentry. cbn [fst].
    unfold json_Unmarshal. rewrite json_parse_render. reflexivity.
  - intros [i n g] Hentry. unfold customer.getCustomer.
    rewrite run_getRecord. cbv zeta. fold id. rewrite run_getFromCache.
    unfold perform at 1. rewrite Hget, Hentry. cbn [fst].
    unfold json_Unmarshal. rewrite json_parse_render. reflexivity.
Qed.

Lemma cache_entries_across_services_witness :
  run sample.db_down (product.getProduct (sample.get_id "c1"))
    (mkWorld {[ "c1" := Document (to_json sample.the_customer) ]} ∅ ∅ ∅)
  = (c_JSON StatusOK (product.mkProduct "c1" "Ada" ""),
     mkWorld {[ "c1" := Document (to_json sample.the_customer) ]} ∅ ∅ ∅,
     [ev (redis_Get "c1")]).
Proof.
  assert (Hentry :
            redis (mkWorld (text := payload)
                     {[ "c1" := Document (to_json sample.the_customer) ]} ∅ ∅ ∅)
              !! DefaultQuery (sample.get_id "c1") "id" ""
            = Some (json_render (to_json sample.the_customer)))
    by (vm_compute; reflexivity).
  exact (proj1 (cache_entries_are_read_across_services payload _ _
                  sample.db_down (sample.get_id "c1") eq_refl)
           sample.the_customer Hentry).
Defined.

(** * Startup *)

Section StartupFacts.

Context {text : Type} `{!JSONText text}.

Import startup.

Lemma boot_order_process (h : Host) :
  boot h (order_startup.process (text := text)) =
  let getenvs :=
    [bev (os_Getenv "AWS_REGION"); bev (os_Getenv "S3_ACCESS_POINT_ARN");
     bev (config_LoadDefaultConfig (Getenv h "AWS_REGION"))] in
  match LoadDefaultConfig_fails h with
  | Some err =>
      (None,
       getenvs ++ [bev (log_Fatalf "unable to load SDK config, %v" [Error err])])%list
  | None =>
      (Some tt,
       getenvs ++
       [bev (NewFromConfig "dynamodb"); bev (NewFromConfig "s3"); bev gin_Default;
        bev (router_Run ":8080"
               [ ("GET", "/v1/order", order.getOrder);
                 ("POST", "/v1/order", order.createOrder);
                 ("POST", "/v1/s3/order",
                  order.saveOrdersToS3 (Getenv h "S3_ACCESS_POINT_ARN")) ])])%list
  end.
Proof.
  unfold order_startup.process, order_startup.package_vars, order_startup.init,
    order_startup.main. simpl.
  destruct (LoadDefaultConfig_fails h); reflexivity.
Qed.

Lemma boot_cache_aside_process {T} `{!cache_aside.Entity T} region_key path (h : Host) :
  boot h (cache_aside_startup.process (T := T) region_key path) =
  let redis_addr := Getenv h "REDIS_HOST" ++ ":" ++ Getenv h "REDIS_PORT" in
  let dsn :=
    Getenv h "MYSQL_USER" ++ ":" ++ Getenv h "MYSQL_PASSWORD" ++ "@tcp("
    ++ Getenv h "MYSQL_HOST" ++ ":" ++ Getenv h "MYSQL_PORT" ++ ")/"
    ++ Getenv h "MYSQL_DBNAME" in
  let getenvs :=
    [bev (os_Getenv "MYSQL_USER"); bev (os_Getenv "MYSQL_PASSWORD");
     bev (os_Getenv "MYSQL_HOST"); bev (os_Getenv "MYSQL_PORT");
     bev (os_Getenv "MYSQL_DBNAME"); bev (os_Getenv "REDIS_HOST");
     bev (os_Getenv "REDIS_PORT"); bev (os_Getenv region_key);
     bev (config_LoadDefaultConfig (Getenv h region_key))] in
  let ping_line :=
    match Ping_fails h with
    | Some err => bev (log_Printf "Redis connection error: %v" [Error err])
    | None => bev (log_Println "Connected to Redis successfully")
    end in
  match LoadDefaultConfig_fails h with
  | Some err =>
      (None,
       getenvs ++ [bev (log_Fatalf "unable to load SDK config, %v" [Error err])])%list
  | None =>
      let connected :=
        (getenvs ++
         [bev (NewFromConfig "rdsdata"); bev (redis_NewClient redis_addr);
          bev redis_Ping; ping_line; bev (sqlx_Connect "mysql" dsn)])%list in
      match Connect_fails h with
      | Some err =>
          (None,
           connected ++
           [bev (log_Fatalf "failed to connect to RDS: %v" [Error err])])%list
      | None =>
          (Some tt,
           connected ++
           [bev gin_Default;
            bev (router_Run ":8080"
                   [ ("GET", path, cache_aside.getRecord (T := T));
                     ("POST", path, cache_aside.createRecord (T := T)) ])])%list
      end
  end.
Proof.
  unfold cache_aside_startup.process, cache_aside_startup.package_vars,
    cache_aside_startup.init, cache_aside_startup.main,
    cache_aside_startup.checkRedisConnection, cache_aside_startup.dsn.
  simpl.
  destruct (LoadDefaultConfig_fails h); [reflexivity|]. simpl.
  destruct (Ping_fails h); simpl; destruct (Connect_fails h); reflexivity.
Qed.

End StartupFacts.

(** X13: startup of the product and customer services.  The process gets
    to [router.Run] exactly when the SDK configuration loads and the
    connection to MySQL succeeds; it then serves GET and POST on its one
    path on port 8080.  When the configuration does not load it exits
    before anything contacts Redis or MySQL; when MySQL cannot be reached
    it exits with "failed to connect to RDS".  The Redis round trip only
    decides a log line: its failure never stops the startup.  The data
    source name and the Redis address are assembled from the environment,
    an unset variable giving an empty component. *)
Theorem cache_aside_startup_outcome :
  forall (text : Type) (J : JSONText text) T (E : cache_aside.Entity T)
         region_key path (h : startup.Host),
  let process := cache_aside_startup.process (T := T) (text := text) region_key path in
  let outcome := startup.boot h process in
  (fst outcome = Some tt <->
   startup.LoadDefaultConfig_fails h = None /\ startup.Connect_fails h = None)
  /\
  (startup.LoadDefaultConfig_fails h = None ->
   startup.Connect_fails h = None ->
   startup.served (snd outcome)
   = Some (":8080",
           [ ("GET", path, cache_aside.getRecord (T := T));
             ("POST", path, cache_aside.createRecord (T := T)) ]))
  /\
  (forall err,
      startup.LoadDefaultConfig_fails h = Some err ->
      last (snd outcome)
      = Some (startup.bev (startup.log_Fatalf "unable to load SDK config, %v"
                             [Error err])) /\
      Forall (fun e => startup.contacts_store e = false) (snd outcome))
  /\
  (forall err,
      startup.LoadDefaultConfig_fails h = None ->
      startup.Connect_fails h = Some err ->
      last (snd outcome)
      = Some (startup.bev (startup.log_Fatalf "failed to connect to RDS: %v"
                             [Error err])))
  /\
  (forall ping,
      fst (startup.boot (startup.with_Ping_fails ping h) process) = fst outcome /\
      startup.served (snd (startup.boot (startup.with_Ping_fails ping h) process))
      = startup.served (snd outcome))
  /\
  (startup.LoadDefaultConfig_fails h = None ->
   In (startup.bev
         (startup.redis_NewClient
            (startup.Getenv h "REDIS_HOST" ++ ":" ++ startup.Getenv h "REDIS_PORT")))
      (snd outcome) /\
   In (startup.bev
         (startup.sqlx_Connect "mysql"
            (startup.Getenv h "MYSQL_USER" ++ ":" ++ startup.Getenv h "MYSQL_PASSWORD"
             ++ "@tcp(" ++ startup.Getenv h "MYSQL_HOST" ++ ":"
             ++ startup.Getenv h "MYSQL_PORT" ++ ")/"
             ++ startup.Getenv h "MYSQL_DBNAME")))
      (snd outcome)).
Proof.
  intros text J T E region_key path h process outcome.
  subst outcome process.
  assert (Hping : forall ping,
             fst (startup.boot (startup.with_Ping_fails ping h)
                    (cache_aside_startup.process (T := T) (text := text)
                       region_key path))
             = fst (startup.boot h
                      (cache_aside_startup.process (T := T) region_key path)) /\
             startup.served
               (snd (startup.boot (startup.with_Ping_fails ping h)
                       (cache_aside_startup.process (T := T) (text := text)
                          region_key path)))
             = startup.served
                 (snd (startup.boot h
                         (cache_aside_startup.process (T := T) region_key path)))).
  { intros ping. rewrite !boot_cache_aside_process. cbv zeta.
    change (startup.LoadDefaultConfig_fails (startup.with_Ping_fails ping h))
      with (startup.LoadDefaultConfig_fails h).
    change (startup.Connect_fails (startup.with_Ping_fails ping h))
      with (startup.Connect_fails h).
    destruct (startup.LoadDefaultConfig_fails h); [split; reflexivity|].
    destruct (startup.Connect_fails h); split; reflexivity. }
  revert Hping. rewrite boot_cache_aside_process. cbv zeta. intros Hping.
  split; [|split; [|split; [|split; [|split; [exact Hping|]]]]].
  - destruct (startup.LoadDefaultConfig_fails h), (startup.Connect_fails h);
      simpl; split; try discriminate; try tauto;
      intros [H1 H2]; discriminate.
  - intros -> ->. reflexivity.
  - intros err ->. split; [reflexivity|]. repeat constructor.
  - intros err -> ->. reflexivity.
  - intros ->. destruct (startup.Connect_fails h); simpl; tauto.
Qed.

Lemma cache_aside_startup_witness :
  startup.served (snd (startup.boot sample_host.no_redis
                         (product_startup.process (text := payload))))
  = Some (":8080",
          [ ("GET", "/v1/product", product.getProduct);
            ("POST", "/v1/product", product.createProduct) ])
  /\
  In (startup.bev
        (startup.sqlx_Connect "mysql" "shop:secret@tcp(db.internal:3306)/shop"))
     (snd (startup.boot sample_host.healthy
             (customer_startup.process (text := payload)))).
Proof.
  split.
  - exact (proj1 (proj2 (cache_aside_startup_outcome payload _ product.Product _
                           "REGION" "/v1/product" sample_host.no_redis))
             eq_refl eq_refl).
  - pose proof (cache_aside_startup_outcome payload _ customer.Customer _
                  "AWS_REGION" "/v1/customer" sample_host.healthy)
      as (_ & _ & _ & _ & _ & H).
    destruct (H eq_refl) as [_ Hdsn]. vm_compute in Hdsn. vm_compute.
    exact Hdsn.
Defined.

(** X14: startup of the order service.  The process gets to [router.Run]
    exactly when the SDK configuration loads, and then serves its three
    routes on port 8080; otherwise it exits with "unable to load SDK
    config" before any client is built.  Nothing checks that
    S3_ACCESS_POINT_ARN is set: the service starts without it, and the
    bulk export it then serves puts its object to the bucket named by the
    empty string. *)
Theorem order_startup_outcome :
  forall (text : Type) (J : JSONText text) (h : startup.Host),
  let outcome := startup.boot h (order_startup.process (text := text)) in
  (fst outcome = Some tt <-> startup.LoadDefaultConfig_fails h = None)
  /\
  (forall err,
      startup.LoadDefaultConfig_fails h = Some err ->
      snd outcome
      = [startup.bev (startup.os_Getenv "AWS_REGION");
         startup.bev (startup.os_Getenv "S3_ACCESS_POINT_ARN");
         startup.bev (startup.config_LoadDefaultConfig (startup.Getenv h "AWS_REGION"));
         startup.bev (startup.log_Fatalf "unable to load SDK config, %v"
                        [Error err])])
  /\
  (startup.LoadDefaultConfig_fails h = None ->
   exists routes,
     startup.served (snd outcome) = Some (":8080", routes) /\
     length routes = 3%nat /\
     startup.route routes "GET" "/v1/order" = Some order.getOrder /\
     startup.route routes "POST" "/v1/order" = Some order.createOrder /\
     startup.route routes "POST" "/v1/s3/order"
     = Some (order.saveOrdersToS3 (startup.Getenv h "S3_ACCESS_POINT_ARN")) /\
     (startup.environ h !! "S3_ACCESS_POINT_ARN" = None ->
      forall export (w : World text) f c,
        startup.route routes "POST" "/v1/s3/order" = Some export ->
        Scan_fails f = None ->
        PutObject_fails f = None ->
        exists data,
          calls_of (run f (export c) w)
          = [ev (dynamo_Scan "order");
             ev (s3_PutObject "" "orders_data.json" data);
             ev (log_Printf "Successfully saved data to S3" [])])).
Proof.
  intros text J h outcome. subst outcome. rewrite boot_order_process. cbv zeta.
  destruct (startup.LoadDefaultConfig_fails h) as [e1|].
  - repeat split; try discriminate. by intros err [= <-].
  - repeat split; try discriminate. intros _.
    eexists. split; [reflexivity|]. repeat split.
    intros Hunset export w f c [= <-] Hscan Hput.
    unfold startup.Getenv. rewrite Hunset.
    change (default "" (None : option string)) with "".
    rewrite (run_saveOrdersToS3_ok "" f c w Hscan Hput).
    eexists. reflexivity.
Qed.

Lemma order_startup_witness :
  exists routes,
    startup.served (snd (startup.boot sample_host.bare
                           (order_startup.process (text := payload))))
    = Some (":8080", routes) /\
    startup.route routes "POST" "/v1/s3/order" = Some (order.saveOrdersToS3 "").
Proof.
  destruct (proj2 (proj2 (order_startup_outcome payload _ sample_host.bare))
              eq_refl) as (routes & Hserved & _ & _ & _ & Hexport & _).
  exists routes. split; [exact Hserved | exact Hexport].
Defined.

(** * Requests about different ids *)

Section Isolation.

Context {text : Type} `{!JSONText text}.

(** The answer to a read depends on the stores only through what they hold
    under the requested id. *)
Lemma getOrder_response_local f c (w w' : World text) :
  dynamodb w' !! DefaultQuery c "id" "" = dynamodb w !! DefaultQuery c "id" "" ->
  response_of (run f (order.getOrder c) w')
  = response_of (run f (order.getOrder c) w).
Proof.
  intros Hitem. rewrite !run_getOrder. cbv zeta.
  destruct (GetItem_fails f); [reflexivity|]. by rewrite Hitem.
Qed.

Lemma getRecord_response_local {T} `{!cache_aside.Entity T} f c (w w' : World text) :
  redis w' !! DefaultQuery c "id" "" = redis w !! DefaultQuery c "id" "" ->
  mysql w' !! DefaultQuery c "id" "" = mysql w !! DefaultQuery c "id" "" ->
  response_of (run f (cache_aside.getRecord (T := T) c) w')
  = response_of (run f (cache_aside.getRecord (T := T) c) w).
Proof.
  intros Hentry Hrow. rewrite !run_getRecord. cbv zeta.
  rewrite !run_getFromCache.
  assert (Hget : fst (perform f (redis_Get (DefaultQuery c "id" "")) w')
                 = fst (perform f (redis_Get (DefaultQuery c "id" "")) w)).
  { unfold perform. destruct (redis_Get_fails f); [reflexivity|].
    rewrite Hentry. by destruct (redis w !! _). }
  rewrite Hget.
  destruct (fst (perform f (redis_Get _) w)) as [val|[| |msg]];
    [destruct (json_Unmarshal val cache_aside.zero); reflexivity
    | | reflexivity ..].
  rewrite !run_getFromDB. cbv zeta.
  assert (Hdb : fst (perform f (db_Get cache_aside.selectQuery
                                  (DefaultQuery c "id" "")) w')
                = fst (perform f (db_Get cache_aside.selectQuery
                                    (DefaultQuery c "id" "")) w)).
  { unfold perform. destruct (db_Get_fails f); [reflexivity|].
    rewrite Hrow. by destruct (mysql w !! _). }
  rewrite Hdb.
  destruct (fst (perform f (db_Get _ _) w)) as [row|err]; [|reflexivity].
  destruct (cache_aside.scan row cache_aside.zero); reflexivity.
Qed.

End Isolation.

(** X15: requests about different ids do not interfere.  In each of the
    three services, a create, whatever its outcome, does not change the
    answer to a read of any id other than the one in its body. *)
Theorem creates_do_not_change_reads_of_other_ids :
  forall (text : Type) (J : JSONText text),
  (forall (w : World text) f c f' c',
      (forall o, ShouldBindJSON c order.zero = Ok o ->
                 order.ID o <> DefaultQuery c' "id" "") ->
      response_of (run f' (order.getOrder c')
                     (world_of (run f (order.createOrder c) w)))
      = response_of (run f' (order.getOrder c') w))
  /\
  (forall T (E : cache_aside.Entity T) (L : EntityLaws T)
          (w : World text) f c f' c',
      (forall p : T, ShouldBindJSON c cache_aside.zero = Ok p ->
                     cache_aside.entity_ID p <> DefaultQuery c' "id" "") ->
      response_of (run f' (cache_aside.getRecord (T := T) c')
                     (world_of (run f (cache_aside.createRecord (T := T) c) w)))
      = response_of (run f' (cache_aside.getRecord (T := T) c') w)).
Proof.
  intros text J. split.
  - intros w f c f' c' Hother. apply getOrder_response_local.
    rewrite run_createOrder.
    destruct (ShouldBindJSON c order.zero) as [o|err]; [|done].
    destruct (PutItem_fails f); [done|].
    unfold world_of; simpl. apply lookup_insert_ne. by apply Hother.
  - intros T E L w f c f' c' Hother.
    apply getRecord_response_local;
      destruct (world_createRecord f c w) as [-> | (p & Hbind & _ & Hw)];
      try done; cbv zeta in Hw; specialize (Hother p Hbind);
      destruct Hw as [-> | ->]; simpl; rewrite ?lookup_insert_ne by done; done.
Qed.

Lemma creates_do_not_change_reads_witness :
  response_of (run no_faults (order.getOrder (sample.get_id "o1"))
                 (world_of (run no_faults
                              (order.createOrder
                                 (sample.post (Document (JObject [("id", JString "o2")]))))
                              sample.order_stored)))
  = response_of (run no_faults (order.getOrder (sample.get_id "o1"))
                   sample.order_stored)
  /\
  response_of (run no_faults (product.getProduct (sample.get_id "p1"))
                 (world_of (run no_faults
                              (product.createProduct
                                 (sample.post (Document (JObject [("id", JString "p2")]))))
                              sample.product_cached)))
  = response_of (run no_faults (product.getProduct (sample.get_id "p1"))
                   sample.product_cached).
Proof.
  pose proof (creates_do_not_change_reads_of_other_ids payload _)
    as [Horder Hrecord].
  split.
  - apply Horder. intros o [= <-]. vm_compute. discriminate.
  - apply (Hrecord product.Product _ _). intros p [= <-]. vm_compute. discriminate.
Defined.
